(** * Azafea metrics: event classification (events/_base.py)

    A shallow embedding of [azafea/event_processors/metrics/events/_base.py]:
    the three model registries filled by [MetricMeta.__new__], the payload
    parsers of [MetricEvent] and [UnknownEvent], and the three dispatchers
    [new_singular_event], [new_aggregate_event] and [new_sequence_event].

    Python exceptions are values of type [Exc]; code that may raise, log or
    add to the database session lives in the monad [M]. *)

From Stdlib Require Import ZArith Lia.
From Stdlib Require Import Strings.Ascii Strings.Byte.
From stdpp Require Import base option list strings pretty gmap fin_maps.

#[local] Set Warnings "-register-all".

Local Open Scope Z_scope.
Local Open Scope string_scope.

Abbreviation bytes := (list byte).

(** ** Exceptions *)

(** The classes of exception the module raises or catches by name.  All of
    them derive from [Exception]; [KeyError] is the one the dispatchers
    single out. *)
Inductive ExcClass : Type :=
| KeyError
| IndexError
| ValueError
| TypeError
| NotImplementedError
| OtherException (name : string).

(** An exception instance: its class and what [str(e)] returns. *)
Record Exc : Type := mkExc { exc_class : ExcClass; exc_str : string }.

Definition is_KeyError (e : Exc) : bool :=
  match exc_class e with KeyError => true | _ => false end.

Inductive result (A : Type) : Type :=
| Ok (a : A)
| Raise (e : Exc).
Arguments Ok {A} a.
Arguments Raise {A} e.

Definition result_bind {A B} (r : result A) (k : A -> result B) : result B :=
  match r with Ok a => k a | Raise e => Raise e end.

(** [repr] of a string without quotes or escapes in it, as the interpreter
    shows the key of a [KeyError]. *)
Definition repr_str (s : string) : string := "'" ++ s ++ "'".

(** ** GLib.Variant values *)

(** The typed tree a [GLib.Variant] decomposes into.  Containers that can be
    empty carry the type string of their elements. *)
Inductive Variant : Type :=
| GByte (b : byte)
| GUint32 (n : Z)
| GInt64 (n : Z)
| GString (s : string)
| GMaybe (elem_type : string) (child : option Variant)
| GArray (elem_type : string) (items : list Variant)
| GTuple (items : list Variant)
| GBox (child : Variant).

Fixpoint get_type_string (v : Variant) : string :=
  match v with
  | GByte _ => "y"
  | GUint32 _ => "u"
  | GInt64 _ => "x"
  | GString _ => "s"
  | GMaybe t _ => "m" ++ t
  | GArray t _ => "a" ++ t
  | GTuple items => "(" ++ String.concat "" (List.map get_type_string items) ++ ")"
  | GBox _ => "v"
  end.

(** The children of a container, in the order they were serialised. *)
Definition children (v : Variant) : list Variant :=
  match v with
  | GMaybe _ (Some c) => [c]
  | GArray _ items => items
  | GTuple items => items
  | GBox c => [c]
  | _ => []
  end.

Definition n_children (v : Variant) : nat := length (children v).

Definition get_child_value (v : Variant) (index : nat) : result Variant :=
  match children v !! index with
  | Some c => Ok c
  | None => Raise (mkExc IndexError "child index out of range")
  end.

Definition get_uint32 (v : Variant) : result Z :=
  match v with
  | GUint32 n => Ok n
  | _ => Raise (mkExc TypeError ("not a uint32: " ++ get_type_string v))
  end.

Definition get_int64 (v : Variant) : result Z :=
  match v with
  | GInt64 n => Ok n
  | _ => Raise (mkExc TypeError ("not an int64: " ++ get_type_string v))
  end.

Definition get_byte (v : Variant) : result byte :=
  match v with
  | GByte b => Ok b
  | _ => Raise (mkExc TypeError ("not a byte: " ++ get_type_string v))
  end.

(** [get_maybe] gives the value inside a maybe, [None] for Nothing. *)
Definition get_maybe (v : Variant) : option Variant :=
  match v with
  | GMaybe _ o => o
  | _ => None
  end.

(** ** uuid.UUID *)

Definition hex_digit (n : N) : ascii :=
  match String.get (N.to_nat n) "0123456789abcdef" with
  | Some c => c
  | None => "0"%char
  end.

Definition hex_byte (b : byte) : string :=
  let n := Byte.to_N b in
  String (hex_digit (n / 16)) (String (hex_digit (n mod 16)) EmptyString).

Definition hex_bytes (b : bytes) : string := String.concat "" (List.map hex_byte b).

(** [str] of a UUID: 32 hexadecimal digits in groups of 8-4-4-4-12. *)
Definition uuid_text (b : bytes) : string :=
  let h := hex_bytes b in
  String.substring 0 8 h ++ "-" ++ String.substring 8 4 h ++ "-"
  ++ String.substring 12 4 h ++ "-" ++ String.substring 16 4 h ++ "-"
  ++ String.substring 20 12 h.

(** [str(UUID(bytes=b))]; anything but 16 bytes is a [ValueError]. *)
Definition UUID_str (b : bytes) : result string :=
  if (length b =? 16)%nat then Ok (uuid_text b)
  else Raise (mkExc ValueError "bytes is not a 16-char string").

(** ** Requests, column values and event rows *)

(** [..request.Request]: the two columns the dispatchers read. *)
Record Request : Type := mkRequest {
  absolute_timestamp : Z;
  relative_timestamp : Z
}.

(** What a keyword argument or a column of an event row can hold. *)
Inductive Value : Type :=
| PyNone
| PyBool (b : bool)
| PyInt (z : Z)
| PyStr (s : string)
| PyBytes (b : bytes)
| PyDatetime (t : Z)
| PyRequest (r : Request).

Abbreviation Fields := (gmap string Value).

(** A final event model, as a downstream module declares it. *)
Record EventModel : Type := mkEventModel {
  __name__ : string;
  __event_uuid__ : string;
  __payload_type__ : option string;
  _get_fields_from_payload : Variant -> result Fields
}.

(** The class of a row: one of the six tables of this module, or a
    registered final model. *)
Inductive ModelClass : Type :=
| InvalidSingularEvent
| UnknownSingularEvent
| InvalidAggregateEvent
| UnknownAggregateEvent
| InvalidSequence
| UnknownSequence
| Known (cls : EventModel).

Record Event : Type := mkEvent {
  event_class : ModelClass;
  event_attrs : Fields
}.

Inductive Outcome : Type := KnownOutcome | UnknownOutcome | InvalidOutcome.

Definition outcome (ev : Event) : Outcome :=
  match event_class ev with
  | Known _ => KnownOutcome
  | UnknownSingularEvent | UnknownAggregateEvent | UnknownSequence => UnknownOutcome
  | InvalidSingularEvent | InvalidAggregateEvent | InvalidSequence => InvalidOutcome
  end.

(** ** The effects: logging and the database session *)

Record LogRecord : Type := mkLog {
  log_level : string;
  log_message : string;
  log_exc_info : option Exc
}.

Record World : Type := mkWorld {
  dbsession : list Event;
  log : list LogRecord
}.

Definition M (A : Type) : Type := World -> result A * World.

Definition ret {A} (a : A) : M A := fun w => (Ok a, w).

Definition raise {A} (e : Exc) : M A := fun w => (Raise e, w).

Definition bind {A B} (m : M A) (k : A -> M B) : M B :=
  fun w => match m w with
           | (Ok a, w') => k a w'
           | (Raise e, w') => (Raise e, w')
           end.

Definition lift {A} (r : result A) : M A := fun w => (r, w).

(** [try: body / except KeyError: on_KeyError / except Exception as e:
    on_Exception e].  The clauses are tried in this order, and what a
    handler itself raises is not caught. *)
Definition try_except {A} (body : M A) (on_KeyError : M A) (on_Exception : Exc -> M A)
  : M A :=
  fun w => match body w with
           | (Ok a, w') => (Ok a, w')
           | (Raise e, w') => if is_KeyError e then on_KeyError w' else on_Exception e w'
           end.

Declare Scope py_scope.
Delimit Scope py_scope with py.
Notation "x <- m ;; k" := (bind m (fun x => k))
  (at level 100, m at next level, right associativity) : py_scope.
Notation "m ;;; k" := (bind m (fun _ => k))
  (at level 100, right associativity) : py_scope.
Local Open Scope py_scope.

Definition add_log (r : LogRecord) (w : World) : World :=
  mkWorld (dbsession w) (log w ++ [r]).

Definition add_row (ev : Event) (w : World) : World :=
  mkWorld (dbsession w ++ [ev]) (log w).

Definition log_error (msg : string) : M unit :=
  fun w => (Ok tt, add_log (mkLog "ERROR" msg None) w).

(** [log.exception(msg)] inside a handler for [e]: an error record with the
    trace of [e]. *)
Definition log_exception (msg : string) (e : Exc) : M unit :=
  fun w => (Ok tt, add_log (mkLog "ERROR" msg (Some e)) w).

Definition dbsession_add (ev : Event) : M unit :=
  fun w => (Ok tt, add_row ev w).

(** ** The model registries *)

Record Registry : Type := mkRegistry {
  SINGULAR_EVENT_MODELS : gmap string EventModel;
  AGGREGATE_EVENT_MODELS : gmap string EventModel;
  SEQUENCE_EVENT_MODELS : gmap string EventModel
}.

(** [d[key]] on a dict. *)
Definition getitem {A} (d : gmap string A) (key : string) : result A :=
  match d !! key with
  | Some a => Ok a
  | None => Raise (mkExc KeyError (repr_str key))
  end.

(** The bases a class statement can list. *)
Inductive BaseClass : Type :=
| SingularEvent
| AggregateEvent
| SequenceEvent
| OtherBase (name : string).

Definition BaseClass_eqb (a b : BaseClass) : bool :=
  match a, b with
  | SingularEvent, SingularEvent => true
  | AggregateEvent, AggregateEvent => true
  | SequenceEvent, SequenceEvent => true
  | OtherBase x, OtherBase y => bool_decide (x = y)
  | _, _ => false
  end.

Definition BaseClass_repr (b : BaseClass) : string :=
  let qualified :=
    match b with
    | SingularEvent => "azafea.event_processors.metrics.events._base.SingularEvent"
    | AggregateEvent => "azafea.event_processors.metrics.events._base.AggregateEvent"
    | SequenceEvent => "azafea.event_processors.metrics.events._base.SequenceEvent"
    | OtherBase name => name
    end in
  "<class " ++ repr_str qualified ++ ">".

(** [repr] of the tuple of bases. *)
Definition repr_bases (bases : list BaseClass) : string :=
  match bases with
  | [b] => "(" ++ BaseClass_repr b ++ ",)"
  | _ => "(" ++ String.concat ", " (List.map BaseClass_repr bases) ++ ")"
  end.

Definition in_bases (b : BaseClass) (bases : list BaseClass) : bool :=
  existsb (BaseClass_eqb b) bases.

(** [MetricMeta.__new__]: [cls] is the class [super().__new__] has just
    built and [event_uuid] is [attrs.get('__event_uuid__')].  The registries
    are module globals, so the new registry is returned next to the result. *)
Definition MetricMeta___new__ (name : string) (bases : list BaseClass)
    (event_uuid : option string) (cls : EventModel) (reg : Registry)
  : result EventModel * Registry :=
  match event_uuid with
  | Some event_uuid =>
      if in_bases SingularEvent bases then
        (Ok cls, mkRegistry (<[event_uuid := cls]> (SINGULAR_EVENT_MODELS reg))
                            (AGGREGATE_EVENT_MODELS reg) (SEQUENCE_EVENT_MODELS reg))
      else if in_bases AggregateEvent bases then
        (Ok cls, mkRegistry (SINGULAR_EVENT_MODELS reg)
                            (<[event_uuid := cls]> (AGGREGATE_EVENT_MODELS reg))
                            (SEQUENCE_EVENT_MODELS reg))
      else if in_bases SequenceEvent bases then
        (Ok cls, mkRegistry (SINGULAR_EVENT_MODELS reg) (AGGREGATE_EVENT_MODELS reg)
                            (<[event_uuid := cls]> (SEQUENCE_EVENT_MODELS reg)))
      else
        (Raise (mkExc NotImplementedError
                  ("Can't handle class " ++ name ++ " with bases " ++ repr_bases bases)),
         reg)
  | None => (Ok cls, reg)
  end.

(** ** Helpers of [..utils] *)

(** Modelled from the spec: [..utils.get_child_values] is not among the
    sources; section 6 gives the reader [n_children] and
    [get_child_value(index)], and section 4.5 takes the children in their
    delivered order. *)
Definition get_child_values (value : Variant) : list Variant := children value.

Fixpoint result_mapM {A B} (f : A -> result B) (l : list A) : result (list B) :=
  match l with
  | [] => Ok []
  | a :: l' =>
      match f a with
      | Ok b => match result_mapM f l' with
                | Ok bs => Ok (b :: bs)
                | Raise e => Raise e
                end
      | Raise e => Raise e
      end
  end.

(** Modelled from the spec: [..utils.get_bytes] is not among the sources;
    section 3 has the event type id parsed from 16 raw bytes, the byte
    children of the value. *)
Definition get_bytes (value : Variant) : result bytes :=
  result_mapM get_byte (get_child_values value).

(** Modelled from the spec: [..utils.get_event_datetime] is not among the
    sources; section 4.3 gives
    event_absolute = request_absolute + (event_relative - request_relative)
    on integers that may be negative, with no clamping. *)
Definition get_event_datetime (request_absolute_timestamp request_relative_timestamp
                               event_relative_timestamp : Z) : Z :=
  request_absolute_timestamp + (event_relative_timestamp - request_relative_timestamp).

(** [first, *middle, last = values] *)
Definition unpack_first_last {A} (values : list A) : result (A * list A * A) :=
  match values with
  | first :: rest =>
      match reverse rest with
      | last :: rev_middle => Ok (first, reverse rev_middle, last)
      | [] => Raise (mkExc ValueError "not enough values to unpack (expected at least 2, got 1)")
      end
  | [] => Raise (mkExc ValueError "not enough values to unpack (expected at least 2, got 0)")
  end.

(** ** The event classes and the dispatchers *)

Section Events.

(** The reader's primitives the module calls and the one helper of
    [..utils] the specification leaves open. *)

(** [GLib.Variant.get_data_as_bytes] followed by [get_data]: the serialised
    form of a value, or [None] where GLib hands back no bytes object. *)
Variable get_data_as_bytes : Variant -> option bytes.

(** [str(variant)], the text form used in messages. *)
Variable print_ : Variant -> string.

(** [..utils.get_variant], applied to a payload before its type is
    compared. *)
Variable get_variant : Variant -> Variant.

(** [MetricEvent._parse_payload] *)
Definition MetricEvent__parse_payload (self : EventModel) (maybe_payload : Variant)
  : M Fields :=
  let payload := get_maybe maybe_payload in
  match __payload_type__ self with
  | None =>
      match payload with
      | Some payload =>
          log_error ("Metric event " ++ __event_uuid__ self
                     ++ " takes no payload, but got " ++ print_ payload) ;;;
          ret ∅
      | None => ret ∅
      end
  | Some expected =>
      match payload with
      | None =>
          raise (mkExc ValueError
                   ("Metric event " ++ __event_uuid__ self ++ " needs a " ++ expected
                    ++ " payload, but got none"))
      | Some payload =>
          let payload := get_variant payload in
          let payload_type := get_type_string payload in
          if bool_decide (payload_type ≠ expected) then
            raise (mkExc ValueError
                     ("Metric event " ++ __event_uuid__ self ++ " needs a " ++ expected
                      ++ " payload, but got " ++ print_ payload
                      ++ " (" ++ payload_type ++ ")"))
          else lift (_get_fields_from_payload self payload)
      end
  end.

(** The two [ValueError]s of [MetricEvent._parse_payload], under the names
    the specification gives them. *)
Definition MissingPayload (self : EventModel) (expected : string) : Exc :=
  mkExc ValueError
    ("Metric event " ++ __event_uuid__ self ++ " needs a " ++ expected
     ++ " payload, but got none").

Definition PayloadTypeMismatch (self : EventModel) (expected : string) (payload : Variant)
  : Exc :=
  mkExc ValueError
    ("Metric event " ++ __event_uuid__ self ++ " needs a " ++ expected
     ++ " payload, but got " ++ print_ payload
     ++ " (" ++ get_type_string payload ++ ")").

(** [UnknownEvent._parse_payload], inherited by every Unknown and Invalid
    class. *)
Definition UnknownEvent__parse_payload (maybe_payload : Variant) : M Fields :=
  let as_bytes := get_data_as_bytes maybe_payload in
  let payload_data :=
    match as_bytes with
    | None => []
    | Some data => data
    end in
  ret {[ "payload_data" := PyBytes payload_data ]}.

(** The bytes of [payload] as the reader exposes them, nothing where it
    exposes none. *)
Definition raw_bytes (payload : Variant) : bytes :=
  match get_data_as_bytes payload with
  | None => []
  | Some data => data
  end.

(** The world after a model without payload type has met [maybe]: one
    error record when a payload came. *)
Definition after_unexpected_payload (cls : EventModel) (maybe : option Variant)
    (w : World) : World :=
  match maybe with
  | None => w
  | Some payload =>
      add_log (mkLog "ERROR"
                 ("Metric event " ++ __event_uuid__ cls ++ " takes no payload, but got "
                  ++ print_ payload) None) w
  end.

(** Method resolution of [self._parse_payload]. *)
Definition _parse_payload (cls : ModelClass) : Variant -> M Fields :=
  match cls with
  | Known model => MetricEvent__parse_payload model
  | _ => UnknownEvent__parse_payload
  end.

(** [MetricEvent.__init__]: [kwargs.update(payload_fields)] lets a payload
    field replace a keyword of the same name; the declarative constructor
    then assigns every keyword to its column. *)
Definition MetricEvent___init__ (cls : ModelClass) (payload : Variant) (kwargs : Fields)
  : M Event :=
  payload_fields <- _parse_payload cls payload ;;
  ret (mkEvent cls (payload_fields ∪ kwargs)).

Definition new_singular_event (reg : Registry) (request : Request)
    (event_variant : Variant) : M Event :=
  user_id <- lift (result_bind (get_child_value event_variant 0) get_uint32) ;;
  id_bytes <- lift (result_bind (get_child_value event_variant 1) get_bytes) ;;
  event_id <- lift (UUID_str id_bytes) ;;
  event_relative_timestamp <-
    lift (result_bind (get_child_value event_variant 2) get_int64) ;;
  payload <- lift (get_child_value event_variant 3) ;;
  let event_date :=
    get_event_datetime (absolute_timestamp request) (relative_timestamp request)
                       event_relative_timestamp in
  event <-
    try_except
      (event_model <- lift (getitem (SINGULAR_EVENT_MODELS reg) event_id) ;;
       MetricEvent___init__ (Known event_model) payload
         {[ "request" := PyRequest request; "user_id" := PyInt user_id;
            "occured_at" := PyDatetime event_date ]})
      (MetricEvent___init__ UnknownSingularEvent payload
         {[ "request" := PyRequest request; "user_id" := PyInt user_id;
            "occured_at" := PyDatetime event_date; "event_id" := PyStr event_id ]})
      (fun e =>
         log_exception "An error occured while processing the event:" e ;;;
         MetricEvent___init__ InvalidSingularEvent payload
           {[ "request" := PyRequest request; "user_id" := PyInt user_id;
              "occured_at" := PyDatetime event_date; "event_id" := PyStr event_id;
              "error" := PyStr (exc_str e) ]}) ;;
  dbsession_add event ;;;
  ret event.

Definition new_aggregate_event (reg : Registry) (request : Request)
    (event_variant : Variant) : M Event :=
  user_id <- lift (result_bind (get_child_value event_variant 0) get_uint32) ;;
  id_bytes <- lift (result_bind (get_child_value event_variant 1) get_bytes) ;;
  event_id <- lift (UUID_str id_bytes) ;;
  count <- lift (result_bind (get_child_value event_variant 2) get_int64) ;;
  event_relative_timestamp <-
    lift (result_bind (get_child_value event_variant 3) get_int64) ;;
  payload <- lift (get_child_value event_variant 4) ;;
  let event_date :=
    get_event_datetime (absolute_timestamp request) (relative_timestamp request)
                       event_relative_timestamp in
  event <-
    try_except
      (event_model <- lift (getitem (AGGREGATE_EVENT_MODELS reg) event_id) ;;
       MetricEvent___init__ (Known event_model) payload
         {[ "request" := PyRequest request; "user_id" := PyInt user_id;
            "occured_at" := PyDatetime event_date; "count" := PyInt count ]})
      (MetricEvent___init__ UnknownAggregateEvent payload
         {[ "request" := PyRequest request; "user_id" := PyInt user_id;
            "occured_at" := PyDatetime event_date; "count" := PyInt count;
            "event_id" := PyStr event_id ]})
      (fun e =>
         log_exception "An error occured while processing the aggregate:" e ;;;
         MetricEvent___init__ InvalidAggregateEvent payload
           {[ "request" := PyRequest request; "user_id" := PyInt user_id;
              "occured_at" := PyDatetime event_date; "count" := PyInt count;
              "event_id" := PyStr event_id; "error" := PyStr (exc_str e) ]}) ;;
  dbsession_add event ;;;
  ret event.

Definition new_sequence_event (reg : Registry) (request : Request)
    (sequence_variant : Variant) : M Event :=
  user_id <- lift (result_bind (get_child_value sequence_variant 0) get_uint32) ;;
  id_bytes <- lift (result_bind (get_child_value sequence_variant 1) get_bytes) ;;
  event_id <- lift (UUID_str id_bytes) ;;
  events <- lift (get_child_value sequence_variant 2) ;;
  let num_events := n_children events in
  if (num_events <? 2)%nat then
    let error :=
      "Sequence must have at least 2 elements, but only had " ++ pretty num_events in
    sequence <-
      MetricEvent___init__ InvalidSequence events
        {[ "request" := PyRequest request; "user_id" := PyInt user_id;
           "event_id" := PyStr event_id; "error" := PyStr error ]} ;;
    dbsession_add sequence ;;;
    ret sequence
  else
    unpacked <- lift (unpack_first_last (get_child_values events)) ;;
    let '(start_variant, _progress_variants, stop_variant) := unpacked in
    start_relative_timestamp <-
      lift (result_bind (get_child_value start_variant 0) get_int64) ;;
    payload <- lift (get_child_value start_variant 1) ;;
    let started_at :=
      get_event_datetime (absolute_timestamp request) (relative_timestamp request)
                         start_relative_timestamp in
    stop_relative_timestamp <-
      lift (result_bind (get_child_value stop_variant 0) get_int64) ;;
    let stopped_at :=
      get_event_datetime (absolute_timestamp request) (relative_timestamp request)
                         stop_relative_timestamp in
    sequence <-
      try_except
        (event_model <- lift (getitem (SEQUENCE_EVENT_MODELS reg) event_id) ;;
         MetricEvent___init__ (Known event_model) payload
           {[ "request" := PyRequest request; "user_id" := PyInt user_id;
              "started_at" := PyDatetime started_at;
              "stopped_at" := PyDatetime stopped_at ]})
        (MetricEvent___init__ UnknownSequence events
           {[ "request" := PyRequest request; "user_id" := PyInt user_id;
              "event_id" := PyStr event_id ]})
        (fun e =>
           log_exception "An error occured while processing the sequence:" e ;;;
           MetricEvent___init__ InvalidSequence events
             {[ "request" := PyRequest request; "user_id" := PyInt user_id;
                "event_id" := PyStr event_id; "error" := PyStr (exc_str e) ]}) ;;
    dbsession_add sequence ;;;
    ret sequence.

End Events.

(** ** Wire records and a sample reader *)

(** The three record shapes of a request: [(uayxmv)], [(uayxxmv)] and
    [(uaya(xmv))]. *)
Definition singular_record (user_id : Z) (event_id : bytes) (relative_timestamp : Z)
    (payload : option Variant) : Variant :=
  GTuple [GUint32 user_id; GArray "y" (List.map GByte event_id);
          GInt64 relative_timestamp; GMaybe "v" payload].

Definition aggregate_record (user_id : Z) (event_id : bytes) (count relative_timestamp : Z)
    (payload : option Variant) : Variant :=
  GTuple [GUint32 user_id; GArray "y" (List.map GByte event_id);
          GInt64 count; GInt64 relative_timestamp; GMaybe "v" payload].

Definition sequence_child (relative_timestamp : Z) (payload : option Variant) : Variant :=
  GTuple [GInt64 relative_timestamp; GMaybe "v" payload].

Definition sequence_children (events : list (Z * option Variant)) : Variant :=
  GArray "(xmv)" (List.map (fun e => sequence_child e.1 e.2) events).

Definition sequence_record (user_id : Z) (event_id : bytes)
    (events : list (Z * option Variant)) : Variant :=
  GTuple [GUint32 user_id; GArray "y" (List.map GByte event_id);
          sequence_children events].

Definition uint32_range (n : Z) : Prop := 0 <= n < 2 ^ 32.
Definition int64_range (n : Z) : Prop := - 2 ^ 63 <= n < 2 ^ 63.

Definition empty_world : World := mkWorld [] [].
Definition empty_registry : Registry := mkRegistry ∅ ∅ ∅.

Definition byte_of_Z (z : Z) : byte :=
  match Byte.of_N (Z.to_N (z mod 256)) with
  | Some b => b
  | None => "000"%byte
  end.

(** The [width] bytes of [z], little end first, two's complement. *)
Fixpoint le_bytes (width : nat) (z : Z) : bytes :=
  match width with
  | O => []
  | S width' => byte_of_Z z :: le_bytes width' (z / 256)
  end.

Definition bytes_of_string (s : string) : bytes := List.map byte_of_ascii (String.list_ascii_of_string s).

(** A sample serialisation to run the dispatchers on: fixed-size values
    little end first, containers as their children in order (no alignment
    padding and no framing offsets), a boxed value followed by a zero byte
    and its type string. *)
Fixpoint sample_data (v : Variant) : bytes :=
  match v with
  | GByte b => [b]
  | GUint32 n => le_bytes 4 n
  | GInt64 n => le_bytes 8 n
  | GString s => bytes_of_string s ++ ["000"%byte]
  | GMaybe _ None => []
  | GMaybe _ (Some c) => sample_data c ++ ["000"%byte]
  | GArray _ items => List.concat (List.map sample_data items)
  | GTuple items => List.concat (List.map sample_data items)
  | GBox c => sample_data c ++ ["000"%byte] ++ bytes_of_string (get_type_string c)
  end.

(** As GLib before 2.62 answers: no bytes object for an empty serialised
    form. *)
Definition sample_get_data_as_bytes (v : Variant) : option bytes :=
  match sample_data v with
  | [] => None
  | data => Some data
  end.

Fixpoint sample_print (v : Variant) : string :=
  match v with
  | GByte b => "0x" ++ hex_byte b
  | GUint32 n => pretty n
  | GInt64 n => pretty n
  | GString s => repr_str s
  | GMaybe _ None => "nothing"
  | GMaybe _ (Some c) => sample_print c
  | GArray _ items => "[" ++ String.concat ", " (List.map sample_print items) ++ "]"
  | GTuple items => "(" ++ String.concat ", " (List.map sample_print items) ++ ")"
  | GBox c => "<" ++ sample_print c ++ ">"
  end.

(** Takes a value out of its boxes. *)
Fixpoint unbox (v : Variant) : Variant :=
  match v with
  | GBox c => unbox c
  | _ => v
  end.

Definition zero_id : bytes := replicate 16 "000"%byte.
Definition zero_uuid : string := "00000000-0000-0000-0000-000000000000".

(** Sample models: one that reads a string payload, one that takes no
    payload, one whose extraction looks a key up and raises [KeyError], and
    one whose extraction raises [ValueError]. *)
Definition image_version_model : EventModel :=
  mkEventModel "ImageVersion" zero_uuid (Some "s")
    (fun payload =>
       match payload with
       | GString s => Ok {[ "image_version" := PyStr s ]}
       | _ => Raise (mkExc TypeError "not a string")
       end).

Definition no_payload_model : EventModel :=
  mkEventModel "NetworkStatus" zero_uuid None
    (fun _ => Raise (mkExc NotImplementedError
                       "Implement this method in final event models")).

Definition lookup_model : EventModel :=
  mkEventModel "ChannelEvent" zero_uuid (Some "s")
    (fun _ => Raise (mkExc KeyError (repr_str "channel"))).

Definition failing_model : EventModel :=
  mkEventModel "StrictEvent" zero_uuid (Some "s")
    (fun _ => Raise (mkExc ValueError "invalid literal")).

Definition sample_registry : Registry :=
  mkRegistry {[ zero_uuid := image_version_model ]}
             {[ zero_uuid := image_version_model ]}
             {[ zero_uuid := image_version_model ]}.

Definition lookup_registry : Registry := mkRegistry {[ zero_uuid := lookup_model ]} ∅ ∅.

Definition failing_registry : Registry :=
  mkRegistry {[ zero_uuid := failing_model ]} {[ zero_uuid := failing_model ]}
             {[ zero_uuid := failing_model ]}.

Definition sample_request : Request := mkRequest 1000 10.

(** ** Vocabulary of the statements *)

(** [needle] occurs in [text]. *)
Definition includes (needle text : string) : Prop :=
  exists before after, text = before ++ needle ++ after.

(** The keywords the dispatchers pass to a registered model. *)
Definition dispatcher_keywords : list string :=
  ["request"; "user_id"; "occured_at"; "count"; "started_at"; "stopped_at"].

(** A model whose payload fields are columns of their own: none of them
    takes the name of a keyword the dispatchers pass. *)
Definition own_columns (cls : EventModel) : Prop :=
  forall payload fields key,
    _get_fields_from_payload cls payload = Ok fields ->
    key ∈ dispatcher_keywords -> fields !! key = None.

Definition registry_own_columns (reg : Registry) : Prop :=
  forall event_id cls,
    SINGULAR_EVENT_MODELS reg !! event_id = Some cls
    \/ AGGREGATE_EVENT_MODELS reg !! event_id = Some cls
    \/ SEQUENCE_EVENT_MODELS reg !! event_id = Some cls ->
    own_columns cls.

(** The reconciled timestamp of a child read at [t] in request [req]. *)
Definition reconciled (req : Request) (t : Z) : Value :=
  PyDatetime (get_event_datetime (absolute_timestamp req) (relative_timestamp req) t).

(** What one call may do to the session and the log: the returned row is
    appended to the session, and the log grows by at most one error
    record. *)
Definition one_row_added (w : World) (row : Event) (w' : World) : Prop :=
  dbsession w' = (dbsession w ++ [row])%list
  /\ (log w' = log w
      \/ exists r, log w' = (log w ++ [r])%list /\ log_level r = "ERROR").

(** * azafea/logging.py *)

(** ** The part of the [logging] and [warnings] modules the file drives *)

Definition NOTSET : Z := 0.
Definition DEBUG : Z := 10.
Definition INFO : Z := 20.
Definition WARNING : Z := 30.
Definition ERROR : Z := 40.
Definition CRITICAL : Z := 50.

Inductive Stream : Type := sys_stdout | sys_stderr.

(** A [logging.LogRecord]: what the format string and the filter read. *)
Record PyLogRecord : Type := mkPyLogRecord {
  levelno : Z;
  levelname : string;
  name : string;
  message : string
}.

(** The filter classes in use. *)
Inductive Filter : Type := StdoutFilter.

(** A format string in ['{'] style, split at its fields. *)
Inductive FormatPiece : Type :=
| Literal (text : string)
| Field_levelname
| Field_name
| Field_message.

Record Handler : Type := mkHandler {
  handler_stream : Stream;
  handler_level : Z;
  handler_filters : list Filter;
  handler_formatter : option (list FormatPiece)
}.

#[global] Instance Stream_eq_dec : EqDecision Stream.
Proof. solve_decision. Defined.
#[global] Instance Filter_eq_dec : EqDecision Filter.
Proof. solve_decision. Defined.
#[global] Instance FormatPiece_eq_dec : EqDecision FormatPiece.
Proof. solve_decision. Defined.
#[global] Instance Handler_eq_dec : EqDecision Handler.
Proof. solve_decision. Defined.

(** The state of the logging system: the root logger's handlers and level,
    the levels set on named loggers, the handlers closed so far, and the
    actions of [warnings.filters], first filter first. *)
Record Logging : Type := mkLogging {
  root_handlers : list Handler;
  root_level : Z;
  logger_levels : gmap string Z;
  closed_handlers : list Handler;
  warnings_filters : list string
}.

(** [logging.StreamHandler(stream=...)] *)
Definition StreamHandler (stream : Stream) : Handler := mkHandler stream NOTSET [] None.

Definition Handler_setLevel (level : Z) (h : Handler) : Handler :=
  mkHandler (handler_stream h) level (handler_filters h) (handler_formatter h).

(** [Filterer.addFilter]: a filter is added once. *)
Definition Handler_addFilter (f : Filter) (h : Handler) : Handler :=
  if bool_decide (f ∈ handler_filters h) then h
  else mkHandler (handler_stream h) (handler_level h) (handler_filters h ++ [f])
                 (handler_formatter h).

Definition Handler_setFormatter (fmt : list FormatPiece) (h : Handler) : Handler :=
  mkHandler (handler_stream h) (handler_level h) (handler_filters h) (Some fmt).

Definition Handler_close (h : Handler) (st : Logging) : Logging :=
  mkLogging (root_handlers st) (root_level st) (logger_levels st)
            (closed_handlers st ++ [h]) (warnings_filters st).

(** [list.remove]: the first equal element goes. *)
Fixpoint list_remove {A} `{EqDecision A} (x : A) (l : list A) : list A :=
  match l with
  | [] => []
  | y :: l' => if decide (y = x) then l' else y :: list_remove x l'
  end.

(** [Logger.removeHandler] on the root logger. *)
Definition removeHandler (h : Handler) (st : Logging) : Logging :=
  mkLogging (if bool_decide (h ∈ root_handlers st) then list_remove h (root_handlers st)
             else root_handlers st)
            (root_level st) (logger_levels st) (closed_handlers st) (warnings_filters st).

(** [Logger.addHandler] on the root logger. *)
Definition addHandler (h : Handler) (st : Logging) : Logging :=
  mkLogging (if bool_decide (h ∈ root_handlers st) then root_handlers st
             else root_handlers st ++ [h])
            (root_level st) (logger_levels st) (closed_handlers st) (warnings_filters st).

Definition root_setLevel (level : Z) (st : Logging) : Logging :=
  mkLogging (root_handlers st) level (logger_levels st) (closed_handlers st)
            (warnings_filters st).

(** [logging.getLogger(name).setLevel(level)] *)
Definition Logger_setLevel (logger : string) (level : Z) (st : Logging) : Logging :=
  mkLogging (root_handlers st) (root_level st) (<[logger := level]> (logger_levels st))
            (closed_handlers st) (warnings_filters st).

(** [logging.basicConfig(level=..., handlers=..., format=..., style='{')]:
    nothing happens when the root logger has handlers already. *)
Definition basicConfig (level : Z) (handlers : list Handler) (fmt : list FormatPiece)
    (st : Logging) : Logging :=
  match root_handlers st with
  | [] =>
      let st :=
        fold_left
          (fun st h =>
             let h :=
               match handler_formatter h with
               | None => Handler_setFormatter fmt h
               | Some _ => h
               end in
             addHandler h st)
          handlers st in
      root_setLevel level st
  | _ :: _ => st
  end.

(** [warnings.simplefilter(action)]: the filter moves to the front. *)
Definition simplefilter (action : string) (st : Logging) : Logging :=
  mkLogging (root_handlers st) (root_level st) (logger_levels st) (closed_handlers st)
            (action :: list_remove action (warnings_filters st)).

(** ** The file itself *)

(** [StdoutFilter.filter] *)
Definition StdoutFilter_filter (record : PyLogRecord) : bool :=
  (levelno record <=? INFO)%Z.

Definition Filter_filter (f : Filter) (record : PyLogRecord) : bool :=
  match f with
  | StdoutFilter => StdoutFilter_filter record
  end.

(** [_reset_logging]: the loop runs over a copy of the handler list. *)
Definition _reset_logging (st : Logging) : Logging :=
  fold_left (fun st handler => removeHandler handler (Handler_close handler st))
            (root_handlers st) st.

(** ['[{levelname}] {name}: {message}'] *)
Definition format_ : list FormatPiece :=
  [Literal "["; Field_levelname; Literal "] "; Field_name; Literal ": "; Field_message].

Definition setup_logging (verbose : bool) (st : Logging) : Logging :=
  let st := _reset_logging st in
  let level := if verbose then DEBUG else INFO in
  let out := StreamHandler sys_stdout in
  let out := Handler_setLevel DEBUG out in
  let out := Handler_addFilter StdoutFilter out in
  let err := StreamHandler sys_stderr in
  let err := Handler_setLevel WARNING err in
  let st := basicConfig level [out; err] format_ st in
  if verbose then
    let st := simplefilter "default" st in
    let st := Logger_setLevel "sqlalchemy" DEBUG st in
    let st := Logger_setLevel "filelock" WARNING st in
    Logger_setLevel "flake8" WARNING st
  else st.

(** ** Emitting a record *)

Definition format_piece (record : PyLogRecord) (piece : FormatPiece) : string :=
  match piece with
  | Literal text => text
  | Field_levelname => levelname record
  | Field_name => name record
  | Field_message => message record
  end.

Definition format_record (fmt : list FormatPiece) (record : PyLogRecord) : string :=
  String.concat "" (List.map (format_piece record) fmt).

(** [Handler.format]: the default formatter prints the message alone. *)
Definition Handler_format (h : Handler) (record : PyLogRecord) : string :=
  match handler_formatter h with
  | Some fmt => format_record fmt record
  | None => message record
  end.

(** [Logger.callHandlers] and [Handler.handle] for the root handlers: a
    handler writes the record when its level and all its filters let it. *)
Definition callHandlers (st : Logging) (record : PyLogRecord) : list (Stream * string) :=
  flat_map
    (fun h =>
       if (handler_level h <=? levelno record)%Z
          && forallb (fun f => Filter_filter f record) (handler_filters h)
       then [(handler_stream h, Handler_format h record)]
       else [])
    (root_handlers st).

(** A dotted logger name and the names of its ancestors, nearest first. *)
Fixpoint dotted_prefixes (seen rest : string) : list string :=
  match rest with
  | EmptyString => [seen]
  | String c rest' =>
      if Ascii.eqb c "."%char
      then dotted_prefixes (seen ++ ".") rest' ++ [seen]
      else dotted_prefixes (seen ++ String c EmptyString) rest'
  end.

Definition logger_lineage (logger : string) : list string := dotted_prefixes "" logger.

(** [Logger.getEffectiveLevel]: the first level set on the way up to the
    root logger. *)
Fixpoint effective_level (st : Logging) (lineage : list string) : Z :=
  match lineage with
  | [] => root_level st
  | logger :: parents =>
      match logger_levels st !! logger with
      | Some level => if (level =? NOTSET)%Z then effective_level st parents else level
      | None => effective_level st parents
      end
  end.

(** [logging.getLogger(record.name).log(record.levelno, ...)]: what is
    written, and where. *)
Definition Logger_log (st : Logging) (record : PyLogRecord) : list (Stream * string) :=
  if (effective_level st (logger_lineage (name record)) <=? levelno record)%Z
  then callHandlers st record
  else [].

(** The logging system of a fresh interpreter: no handler, root level
    WARNING. *)
Definition initial_logging : Logging := mkLogging [] WARNING ∅ [] [].

(** * chuleisi/controller.py *)

(** [.config.Config]: the two settings the controller reads. *)
Record MainConfig : Type := mkMainConfig {
  verbose : bool;
  number_of_workers : Z
}.

Record Config : Type := mkConfig { main : MainConfig }.

(** [.processor.Processor]: a process with a name, to start and to join. *)
Record Processor : Type := mkProcessor { processor_name : string }.

Inductive ProcessCall : Type :=
| Process_start (proc : Processor)
| Process_join (proc : Processor).

(** What the controller does to its surroundings, in order: the calls of
    [setup_logging], the records handed to the module's logger (level and
    message), and the calls on processes. *)
Record Host : Type := mkHost {
  setup_logging_calls : list bool;
  log_calls : list (Z * string);
  process_calls : list ProcessCall
}.

Definition host_setup_logging (verbose : bool) (h : Host) : Host :=
  mkHost (setup_logging_calls h ++ [verbose]) (log_calls h) (process_calls h).

Definition host_log (level : Z) (msg : string) (h : Host) : Host :=
  mkHost (setup_logging_calls h) (log_calls h ++ [(level, msg)]) (process_calls h).

Definition host_process (call : ProcessCall) (h : Host) : Host :=
  mkHost (setup_logging_calls h) (log_calls h) (process_calls h ++ [call]).

Record Controller : Type := mkController {
  config : Config;
  _processors : list Processor;
  _number_of_workers : Z
}.

(** [range(start, stop)] *)
Definition range (start stop : Z) : list Z := seqZ start (stop - start).

Definition newline : string := String (ascii_of_nat 10) EmptyString.

Section ControllerClass.

(** [str(config)] *)
Variable Config_str : Config -> string.

Definition Controller___init__ (config : Config) (h : Host) : Controller * Host :=
  let h := host_setup_logging (verbose (main config)) h in
  let self := mkController config [] (number_of_workers (main config)) in
  let h :=
    host_log DEBUG ("Loaded the following configuration:" ++ newline ++ Config_str config)
             h in
  (self, h).

Definition Controller_start (self : Controller) (h : Host) : Controller * Host :=
  let h :=
    host_log INFO
      ("Starting the controller with " ++ pretty (_number_of_workers self) ++ " worker"
       ++ (if (1 <? _number_of_workers self)%Z then "s" else ""))
      h in
  fold_left
    (fun (state : Controller * Host) (i : Z) =>
       let self := state.1 in
       let h := state.2 in
       let proc := mkProcessor ("worker-" ++ pretty i) in
       let h := host_process (Process_start proc) h in
       (mkController (config self) (_processors self ++ [proc]) (_number_of_workers self),
        h))
    (range 1 (_number_of_workers self + 1))
    (self, h).

Definition Controller_main (self : Controller) (h : Host) : Controller * Host :=
  let state := Controller_start self h in
  let self := state.1 in
  let h := fold_left (fun h proc => host_process (Process_join proc) h) (_processors self)
                     state.2 in
  let h := host_log INFO "All workers finished, exiting" h in
  (self, h).

End ControllerClass.

(** The processes [start] creates for [n] workers. *)
Definition workers (n : Z) : list Processor :=
  List.map (fun i : Z => mkProcessor ("worker-" ++ pretty i)) (range 1 (n + 1)).

Definition empty_host : Host := mkHost [] [] [].

(** * Properties *)

(** ** Reading the wire records *)

Lemma bind_lift_Ok {A B} (r : result A) (a : A) (k : A -> M B) :
  r = Ok a -> bind (lift r) k = k a.
Proof. intros ->. reflexivity. Qed.

Lemma get_bytes_byte_array (t : string) (b : bytes) :
  get_bytes (GArray t (List.map GByte b)) = Ok b.
Proof.
  unfold get_bytes, get_child_values, children.
  induction b as [|x b IH]; simpl; [reflexivity|].
  rewrite IH. reflexivity.
Qed.

Lemma UUID_str_16 (b : bytes) : length b = 16%nat -> UUID_str b = Ok (uuid_text b).
Proof. intros H. unfold UUID_str. rewrite H. reflexivity. Qed.

Lemma unpack_first_last_app {A} (first last : A) (middle : list A) :
  unpack_first_last (first :: middle ++ [last]) = Ok (first, middle, last).
Proof.
  unfold unpack_first_last. rewrite reverse_app. simpl.
  rewrite reverse_involutive. reflexivity.
Qed.

Section Classification.

Variable get_data_as_bytes : Variant -> option bytes.
Variable print_ : Variant -> string.
Variable get_variant : Variant -> Variant.

Local Abbreviation parse_known := (MetricEvent__parse_payload print_ get_variant).
Local Abbreviation parse_raw := (UnknownEvent__parse_payload get_data_as_bytes).
Local Abbreviation raw := (raw_bytes get_data_as_bytes).
Local Abbreviation init := (MetricEvent___init__ get_data_as_bytes print_ get_variant).
Local Abbreviation singular := (new_singular_event get_data_as_bytes print_ get_variant).
Local Abbreviation aggregate := (new_aggregate_event get_data_as_bytes print_ get_variant).
Local Abbreviation sequence := (new_sequence_event get_data_as_bytes print_ get_variant).

Lemma init_known (cls : EventModel) (payload : Variant) (kwargs : Fields) (w : World) :
  init (Known cls) payload kwargs w
  = match parse_known cls payload w with
    | (Ok fields, w') => (Ok (mkEvent (Known cls) (fields ∪ kwargs)), w')
    | (Raise e, w') => (Raise e, w')
    end.
Proof. reflexivity. Qed.

(** The singular dispatcher on a well-formed record, by cases on the
    registry and on what the model's constructor does. *)
Lemma new_singular_event_run reg req u idb t p w :
  length idb = 16%nat ->
  let event_id := uuid_text idb in
  let payload := GMaybe "v" p in
  let common : Fields :=
    {[ "request" := PyRequest req; "user_id" := PyInt u;
       "occured_at" := PyDatetime (get_event_datetime (absolute_timestamp req)
                                     (relative_timestamp req) t) ]} in
  let unknown :=
    mkEvent UnknownSingularEvent
      ({[ "payload_data" := PyBytes (raw payload) ]}
       ∪ {[ "request" := PyRequest req; "user_id" := PyInt u;
            "occured_at" := PyDatetime (get_event_datetime (absolute_timestamp req)
                                          (relative_timestamp req) t);
            "event_id" := PyStr event_id ]}) in
  let invalid e :=
    mkEvent InvalidSingularEvent
      ({[ "payload_data" := PyBytes (raw payload) ]}
       ∪ {[ "request" := PyRequest req; "user_id" := PyInt u;
            "occured_at" := PyDatetime (get_event_datetime (absolute_timestamp req)
                                          (relative_timestamp req) t);
            "event_id" := PyStr event_id; "error" := PyStr (exc_str e) ]}) in
  singular reg req (singular_record u idb t p) w
  = match SINGULAR_EVENT_MODELS reg !! event_id with
    | None => (Ok unknown, add_row unknown w)
    | Some cls =>
        match parse_known cls payload w with
        | (Ok fields, w') =>
            let known := mkEvent (Known cls) (fields ∪ common) in
            (Ok known, add_row known w')
        | (Raise e, w') =>
            if is_KeyError e then (Ok unknown, add_row unknown w')
            else (Ok (invalid e),
                  add_row (invalid e)
                    (add_log (mkLog "ERROR" "An error occured while processing the event:"
                                (Some e)) w'))
        end
    end.
Proof.
  intros Hlen event_id payload common unknown invalid.
  unfold new_singular_event, singular_record.
  rewrite (bind_lift_Ok _ u) by reflexivity.
  rewrite (bind_lift_Ok _ idb) by apply get_bytes_byte_array.
  rewrite (bind_lift_Ok _ event_id) by (apply UUID_str_16; exact Hlen).
  rewrite (bind_lift_Ok _ t) by reflexivity.
  rewrite (bind_lift_Ok _ payload) by reflexivity.
  unfold bind at 1. unfold try_except, getitem.
  destruct (SINGULAR_EVENT_MODELS reg !! event_id) as [cls|] eqn:Hreg.
  - unfold bind at 1. unfold lift at 1.
    rewrite init_known.
    destruct (parse_known cls payload w) as [[fields|e] w'].
    + reflexivity.
    + destruct (is_KeyError e) eqn:Hk; reflexivity.
  - reflexivity.
Qed.

Lemma new_aggregate_event_run reg req u idb c t p w :
  length idb = 16%nat ->
  let event_id := uuid_text idb in
  let payload := GMaybe "v" p in
  let common : Fields :=
    {[ "request" := PyRequest req; "user_id" := PyInt u;
       "occured_at" := PyDatetime (get_event_datetime (absolute_timestamp req)
                                     (relative_timestamp req) t);
       "count" := PyInt c ]} in
  let unknown :=
    mkEvent UnknownAggregateEvent
      ({[ "payload_data" := PyBytes (raw payload) ]}
       ∪ {[ "request" := PyRequest req; "user_id" := PyInt u;
            "occured_at" := PyDatetime (get_event_datetime (absolute_timestamp req)
                                          (relative_timestamp req) t);
            "count" := PyInt c; "event_id" := PyStr event_id ]}) in
  let invalid e :=
    mkEvent InvalidAggregateEvent
      ({[ "payload_data" := PyBytes (raw payload) ]}
       ∪ {[ "request" := PyRequest req; "user_id" := PyInt u;
            "occured_at" := PyDatetime (get_event_datetime (absolute_timestamp req)
                                          (relative_timestamp req) t);
            "count" := PyInt c; "event_id" := PyStr event_id;
            "error" := PyStr (exc_str e) ]}) in
  aggregate reg req (aggregate_record u idb c t p) w
  = match AGGREGATE_EVENT_MODELS reg !! event_id with
    | None => (Ok unknown, add_row unknown w)
    | Some cls =>
        match parse_known cls payload w with
        | (Ok fields, w') =>
            let known := mkEvent (Known cls) (fields ∪ common) in
            (Ok known, add_row known w')
        | (Raise e, w') =>
            if is_KeyError e then (Ok unknown, add_row unknown w')
            else (Ok (invalid e),
                  add_row (invalid e)
                    (add_log (mkLog "ERROR"
                                "An error occured while processing the aggregate:"
                                (Some e)) w'))
        end
    end.
Proof.
  intros Hlen event_id payload common unknown invalid.
  unfold new_aggregate_event, aggregate_record.
  rewrite (bind_lift_Ok _ u) by reflexivity.
  rewrite (bind_lift_Ok _ idb) by apply get_bytes_byte_array.
  rewrite (bind_lift_Ok _ event_id) by (apply UUID_str_16; exact Hlen).
  rewrite (bind_lift_Ok _ c) by reflexivity.
  rewrite (bind_lift_Ok _ t) by reflexivity.
  rewrite (bind_lift_Ok _ payload) by reflexivity.
  unfold bind at 1. unfold try_except, getitem.
  destruct (AGGREGATE_EVENT_MODELS reg !! event_id) as [cls|] eqn:Hreg.
  - unfold bind at 1. unfold lift at 1.
    rewrite init_known.
    destruct (parse_known cls payload w) as [[fields|e] w'].
    + reflexivity.
    + destruct (is_KeyError e) eqn:Hk; reflexivity.
  - reflexivity.
Qed.

Lemma n_children_sequence_children events :
  n_children (sequence_children events) = length events.
Proof. unfold n_children, sequence_children, children. apply length_map. Qed.

(** A sequence of fewer than two children: the registries are not read. *)
Lemma new_sequence_event_short reg req u idb events w :
  length idb = 16%nat ->
  (length events < 2)%nat ->
  let row :=
    mkEvent InvalidSequence
      ({[ "payload_data" := PyBytes (raw (sequence_children events)) ]}
       ∪ {[ "request" := PyRequest req; "user_id" := PyInt u;
            "event_id" := PyStr (uuid_text idb);
            "error" := PyStr ("Sequence must have at least 2 elements, but only had "
                              ++ pretty (length events)) ]}) in
  sequence reg req (sequence_record u idb events) w = (Ok row, add_row row w).
Proof.
  intros Hlen Hshort row.
  unfold new_sequence_event, sequence_record.
  rewrite (bind_lift_Ok _ u) by reflexivity.
  rewrite (bind_lift_Ok _ idb) by apply get_bytes_byte_array.
  rewrite (bind_lift_Ok _ (uuid_text idb)) by (apply UUID_str_16; exact Hlen).
  rewrite (bind_lift_Ok _ (sequence_children events)) by reflexivity.
  rewrite n_children_sequence_children.
  destruct (Nat.ltb_spec (length events) 2) as [_|Hge]; [|lia].
  reflexivity.
Qed.

(** A sequence of a start child, any progress children and a stop child. *)
Lemma new_sequence_event_run reg req u idb t1 p1 middle t2 p2 w :
  length idb = 16%nat ->
  let events := (t1, p1) :: middle ++ [(t2, p2)] in
  let event_id := uuid_text idb in
  let payload := GMaybe "v" p1 in
  let common : Fields :=
    {[ "request" := PyRequest req; "user_id" := PyInt u;
       "started_at" := PyDatetime (get_event_datetime (absolute_timestamp req)
                                     (relative_timestamp req) t1);
       "stopped_at" := PyDatetime (get_event_datetime (absolute_timestamp req)
                                     (relative_timestamp req) t2) ]} in
  let unknown :=
    mkEvent UnknownSequence
      ({[ "payload_data" := PyBytes (raw (sequence_children events)) ]}
       ∪ {[ "request" := PyRequest req; "user_id" := PyInt u;
            "event_id" := PyStr event_id ]}) in
  let invalid e :=
    mkEvent InvalidSequence
      ({[ "payload_data" := PyBytes (raw (sequence_children events)) ]}
       ∪ {[ "request" := PyRequest req; "user_id" := PyInt u;
            "event_id" := PyStr event_id; "error" := PyStr (exc_str e) ]}) in
  sequence reg req (sequence_record u idb events) w
  = match SEQUENCE_EVENT_MODELS reg !! event_id with
    | None => (Ok unknown, add_row unknown w)
    | Some cls =>
        match parse_known cls payload w with
        | (Ok fields, w') =>
            let known := mkEvent (Known cls) (fields ∪ common) in
            (Ok known, add_row known w')
        | (Raise e, w') =>
            if is_KeyError e then (Ok unknown, add_row unknown w')
            else (Ok (invalid e),
                  add_row (invalid e)
                    (add_log (mkLog "ERROR"
                                "An error occured while processing the sequence:"
                                (Some e)) w'))
        end
    end.
Proof.
  intros Hlen events event_id payload common unknown invalid.
  unfold new_sequence_event, sequence_record.
  rewrite (bind_lift_Ok _ u) by reflexivity.
  rewrite (bind_lift_Ok _ idb) by apply get_bytes_byte_array.
  rewrite (bind_lift_Ok _ event_id) by (apply UUID_str_16; exact Hlen).
  rewrite (bind_lift_Ok _ (sequence_children events)) by reflexivity.
  rewrite n_children_sequence_children.
  destruct (Nat.ltb_spec (length events) 2) as [Hlt|_].
  { unfold events in Hlt. simpl in Hlt. rewrite length_app in Hlt. simpl in Hlt. lia. }
  rewrite (bind_lift_Ok _ (sequence_child t1 p1,
                           List.map (fun e => sequence_child e.1 e.2) middle,
                           sequence_child t2 p2)).
  2:{ unfold get_child_values, sequence_children, children, events.
      cbn [List.map]. rewrite List.map_app. apply unpack_first_last_app. }
  cbv beta iota.
  unfold sequence_child at 1 2.
  rewrite (bind_lift_Ok _ t1) by reflexivity.
  rewrite (bind_lift_Ok _ payload) by reflexivity.
  unfold sequence_child at 1.
  rewrite (bind_lift_Ok _ t2) by reflexivity.
  unfold bind at 1. unfold try_except, getitem.
  destruct (SEQUENCE_EVENT_MODELS reg !! event_id) as [cls|] eqn:Hreg.
  - unfold bind at 1. unfold lift at 1.
    rewrite init_known.
    destruct (parse_known cls payload w) as [[fields|e] w'].
    + reflexivity.
    + destruct (is_KeyError e) eqn:Hk; reflexivity.
  - reflexivity.
Qed.

(** ** Payload decoding *)

Lemma string_app_assoc (a b c : string) : (a ++ b) ++ c = a ++ b ++ c.
Proof.
  induction a as [|x a IH]; [reflexivity|].
  change (String x ((a ++ b) ++ c) = String x (a ++ b ++ c)).
  f_equal. exact IH.
Qed.

Lemma includes_middle (before needle after : string) :
  includes needle (before ++ needle ++ after).
Proof. exists before, after. reflexivity. Qed.

Lemma string_app_nil_r (s : string) : s ++ "" = s.
Proof.
  induction s as [|c s IH]; [reflexivity|].
  change (String c (s ++ "") = String c s). f_equal. exact IH.
Qed.

Lemma includes_end (before needle : string) : includes needle (before ++ needle).
Proof. exists before, "". rewrite string_app_nil_r. reflexivity. Qed.

(** C3. [MetricEvent._parse_payload] on a maybe-payload follows four rules
    in order: a model that declares no payload type gives the empty field
    set, writing one error record to the log and raising nothing when a
    payload came with it; a declared type and no payload raises
    MissingPayload; a payload whose type string differs from the declared one
    raises PayloadTypeMismatch, whose message holds both type strings;
    otherwise the result is that of the model's field extraction, so nothing
    else can fail. *)
Theorem parse_payload_rules (self : EventModel) (elem_type : string)
    (maybe : option Variant) (w : World) :
  let run := parse_known self (GMaybe elem_type maybe) w in
  match __payload_type__ self, maybe with
  | None, None => run = (Ok ∅, w)
  | None, Some payload =>
      run = (Ok ∅,
             add_log (mkLog "ERROR"
                        ("Metric event " ++ __event_uuid__ self
                         ++ " takes no payload, but got " ++ print_ payload) None) w)
  | Some expected, None => run = (Raise (MissingPayload self expected), w)
  | Some expected, Some payload =>
      let value := get_variant payload in
      let failure := PayloadTypeMismatch print_ self expected value in
      (get_type_string value <> expected ->
       run = (Raise failure, w)
       /\ includes expected (exc_str failure)
       /\ includes (get_type_string value) (exc_str failure))
      /\ (get_type_string value = expected ->
          run = (_get_fields_from_payload self value, w))
  end.
Proof.
  unfold MetricEvent__parse_payload, get_maybe.
  destruct (__payload_type__ self) as [expected|], maybe as [payload|]; cbn zeta;
    try reflexivity.
  split.
  - intros Hne. rewrite bool_decide_eq_true_2 by exact Hne.
    split; [reflexivity|]. unfold PayloadTypeMismatch. cbn [exc_str]. split.
    + rewrite <- (string_app_assoc "Metric event " (__event_uuid__ self)).
      rewrite <- (string_app_assoc _ " needs a ").
      apply includes_middle.
    + exists ("Metric event " ++ __event_uuid__ self ++ " needs a " ++ expected
              ++ " payload, but got " ++ print_ (get_variant payload) ++ " ("), ")".
      rewrite !string_app_assoc. reflexivity.
  - intros Heq. rewrite bool_decide_eq_false_2 by (intros Hne; apply Hne, Heq).
    reflexivity.
Qed.

(** ** Sequences of fewer than two children *)

(** C6. A sequence of zero or one child gives an InvalidSequence row whose
    payload_data is the serialised form of the whole child list and whose
    error names the minimum, 2, and the number of children found; the row
    and the session are the same whatever the registries hold, so no model
    is looked up. *)
Theorem short_sequence_invalid (reg reg' : Registry) (req : Request) (u : Z)
    (idb : bytes) (events : list (Z * option Variant)) (w : World) :
  length idb = 16%nat ->
  (length events < 2)%nat ->
  exists row,
    sequence reg req (sequence_record u idb events) w = (Ok row, add_row row w)
    /\ sequence reg' req (sequence_record u idb events) w = (Ok row, add_row row w)
    /\ event_class row = InvalidSequence
    /\ event_attrs row !! "payload_data"
       = Some (PyBytes (raw (sequence_children events)))
    /\ event_attrs row !! "error"
       = Some (PyStr ("Sequence must have at least 2 elements, but only had "
                      ++ pretty (length events)))
    /\ includes "at least 2"
         ("Sequence must have at least 2 elements, but only had "
          ++ pretty (length events))
    /\ includes (pretty (length events))
         ("Sequence must have at least 2 elements, but only had "
          ++ pretty (length events)).
Proof.
  intros Hlen Hshort. eexists.
  split; [apply new_sequence_event_short; assumption|].
  split; [apply new_sequence_event_short; assumption|].
  split; [reflexivity|].
  split; [reflexivity|].
  split; [reflexivity|].
  split.
  - exists "Sequence must have ", (" elements, but only had " ++ pretty (length events)).
    reflexivity.
  - apply includes_end.
Qed.

(** ** Every well-formed record gives one row *)

Lemma parse_known_dbsession cls payload w r w' :
  parse_known cls payload w = (r, w') -> dbsession w' = dbsession w.
Proof.
  unfold MetricEvent__parse_payload.
  destruct (__payload_type__ cls) as [expected|], (get_maybe payload) as [v|];
    cbn zeta; try (intros [= <- <-]; reflexivity).
  destruct (bool_decide _); intros [= <- <-]; reflexivity.
Qed.

Lemma parse_known_fields cls payload w fields w' :
  parse_known cls payload w = (Ok fields, w') ->
  fields = ∅ \/ exists value, _get_fields_from_payload cls value = Ok fields.
Proof.
  unfold MetricEvent__parse_payload.
  destruct (__payload_type__ cls) as [expected|], (get_maybe payload) as [v|];
    cbn zeta; try (intros [= <- <-]; left; reflexivity); try discriminate.
  destruct (bool_decide _); [discriminate|].
  unfold lift. intros [= H <-]. right. eexists. exact H.
Qed.

Lemma first_middle_last {A} (l : list A) :
  (2 <= length l)%nat -> exists first middle last, l = first :: middle ++ [last].
Proof.
  destruct l as [|first rest]; simpl; [lia|]. intros H.
  destruct (reverse rest) as [|last rev_middle] eqn:Hrev.
  - apply (f_equal reverse) in Hrev. rewrite reverse_involutive in Hrev.
    subst rest. simpl in H. lia.
  - exists first, (reverse rev_middle), last.
    apply (f_equal reverse) in Hrev. rewrite reverse_involutive in Hrev.
    rewrite Hrev, reverse_cons. reflexivity.
Qed.

Lemma parse_known_raise_world cls payload w e w' :
  parse_known cls payload w = (Raise e, w') -> w' = w.
Proof.
  unfold MetricEvent__parse_payload.
  destruct (__payload_type__ cls), (get_maybe payload); cbn zeta;
    try discriminate; try (intros [= _ <-]; reflexivity).
  destruct (bool_decide _); intros [= _ <-]; reflexivity.
Qed.

Lemma sequence_shape (events : list (Z * option Variant)) :
  (length events < 2)%nat
  \/ exists t1 p1 middle t2 p2, events = (t1, p1) :: middle ++ [(t2, p2)].
Proof.
  destruct (Nat.lt_ge_cases (length events) 2) as [H|H]; [left; exact H|right].
  destruct (first_middle_last events H) as ([t1 p1] & middle & [t2 p2] & ->).
  exists t1, p1, middle, t2, p2. reflexivity.
Qed.

(** Splits the run of a dispatcher into: model found and payload parsed,
    model found and [KeyError] raised, model found and another exception
    raised, no model found. *)
Ltac split_run models key payload w :=
  cbv zeta;
  let cls := fresh "cls" in
  let Hreg := fresh "Hreg" in
  let fields := fresh "fields" in
  let e := fresh "e" in
  let w1 := fresh "w1" in
  let Hparse := fresh "Hparse" in
  let Hk := fresh "Hk" in
  destruct (models !! key) as [cls|] eqn:Hreg;
  [ destruct (parse_known cls payload w) as [[fields|e] w1] eqn:Hparse;
    [ | destruct (is_KeyError e) eqn:Hk ]
  | ].

(** Each dispatcher returns one row for a well-formed record and adds that
    row, and nothing else, to the session. *)
Lemma new_singular_event_total reg req u idb t p w :
  length idb = 16%nat ->
  exists row w',
    singular reg req (singular_record u idb t p) w = (Ok row, add_row row w')
    /\ dbsession w' = dbsession w.
Proof.
  intros Hlen. rewrite new_singular_event_run by exact Hlen.
  split_run (SINGULAR_EVENT_MODELS reg) (uuid_text idb) (GMaybe "v" p) w;
    do 2 eexists; (split; [reflexivity|]);
    try reflexivity; cbn [dbsession add_log];
    try (eapply parse_known_dbsession; eassumption).
Qed.

Lemma new_aggregate_event_total reg req u idb c t p w :
  length idb = 16%nat ->
  exists row w',
    aggregate reg req (aggregate_record u idb c t p) w = (Ok row, add_row row w')
    /\ dbsession w' = dbsession w.
Proof.
  intros Hlen. rewrite new_aggregate_event_run by exact Hlen.
  split_run (AGGREGATE_EVENT_MODELS reg) (uuid_text idb) (GMaybe "v" p) w;
    do 2 eexists; (split; [reflexivity|]);
    try reflexivity; cbn [dbsession add_log];
    try (eapply parse_known_dbsession; eassumption).
Qed.

Lemma new_sequence_event_total reg req u idb events w :
  length idb = 16%nat ->
  exists row w',
    sequence reg req (sequence_record u idb events) w = (Ok row, add_row row w')
    /\ dbsession w' = dbsession w.
Proof.
  intros Hlen.
  destruct (sequence_shape events) as [Hshort|(t1 & p1 & middle & t2 & p2 & ->)].
  - rewrite new_sequence_event_short by assumption. do 2 eexists. split; reflexivity.
  - rewrite new_sequence_event_run by exact Hlen.
    split_run (SEQUENCE_EVENT_MODELS reg) (uuid_text idb) (GMaybe "v" p1) w;
      do 2 eexists; (split; [reflexivity|]);
      try reflexivity; cbn [dbsession add_log];
      try (eapply parse_known_dbsession; eassumption).
Qed.

(** A registered model whose constructor raises anything but a [KeyError]
    gives the Invalid row of the category, with [str(e)] as its error; the
    exception goes to the log and no further. *)
Lemma decode_failure_invalid reg req u idb cls e w w' :
  length idb = 16%nat ->
  is_KeyError e = false ->
  (forall t p,
      SINGULAR_EVENT_MODELS reg !! uuid_text idb = Some cls ->
      parse_known cls (GMaybe "v" p) w = (Raise e, w') ->
      exists row w'',
        singular reg req (singular_record u idb t p) w = (Ok row, w'')
        /\ event_class row = InvalidSingularEvent
        /\ event_attrs row !! "error" = Some (PyStr (exc_str e)))
  /\ (forall c t p,
        AGGREGATE_EVENT_MODELS reg !! uuid_text idb = Some cls ->
        parse_known cls (GMaybe "v" p) w = (Raise e, w') ->
        exists row w'',
          aggregate reg req (aggregate_record u idb c t p) w = (Ok row, w'')
          /\ event_class row = InvalidAggregateEvent
          /\ event_attrs row !! "error" = Some (PyStr (exc_str e)))
  /\ (forall t1 p1 middle t2 p2,
        SEQUENCE_EVENT_MODELS reg !! uuid_text idb = Some cls ->
        parse_known cls (GMaybe "v" p1) w = (Raise e, w') ->
        exists row w'',
          sequence reg req (sequence_record u idb ((t1, p1) :: middle ++ [(t2, p2)])) w
          = (Ok row, w'')
          /\ event_class row = InvalidSequence
          /\ event_attrs row !! "error" = Some (PyStr (exc_str e))).
Proof.
  intros Hlen Hk. repeat split.
  - intros t p Hreg Hparse. rewrite new_singular_event_run by exact Hlen.
    cbv zeta. rewrite Hreg, Hparse, Hk. do 2 eexists. repeat split; reflexivity.
  - intros c t p Hreg Hparse. rewrite new_aggregate_event_run by exact Hlen.
    cbv zeta. rewrite Hreg, Hparse, Hk. do 2 eexists. repeat split; reflexivity.
  - intros t1 p1 middle t2 p2 Hreg Hparse. rewrite new_sequence_event_run by exact Hlen.
    cbv zeta. rewrite Hreg, Hparse, Hk. do 2 eexists. repeat split; reflexivity.
Qed.

(** ** Unknown event types *)

(** C2, as the code has it.  A singular or aggregate record whose id is not
    in the registry of its category gives the Unknown row of the category;
    so does a sequence of at least two children.  The row keeps the id, its
    payload_data is the serialised form of the payload as the reader exposes
    it (for a sequence, of the whole child list), and the log is left as it
    was. *)
Theorem unknown_type_keeps_payload (reg : Registry) (req : Request) (u : Z)
    (idb : bytes) (w : World) :
  length idb = 16%nat ->
  (forall t p,
      SINGULAR_EVENT_MODELS reg !! uuid_text idb = None ->
      exists row,
        singular reg req (singular_record u idb t p) w = (Ok row, add_row row w)
        /\ event_class row = UnknownSingularEvent
        /\ event_attrs row !! "payload_data" = Some (PyBytes (raw (GMaybe "v" p)))
        /\ event_attrs row !! "event_id" = Some (PyStr (uuid_text idb)))
  /\ (forall c t p,
        AGGREGATE_EVENT_MODELS reg !! uuid_text idb = None ->
        exists row,
          aggregate reg req (aggregate_record u idb c t p) w = (Ok row, add_row row w)
          /\ event_class row = UnknownAggregateEvent
          /\ event_attrs row !! "payload_data" = Some (PyBytes (raw (GMaybe "v" p)))
          /\ event_attrs row !! "event_id" = Some (PyStr (uuid_text idb)))
  /\ (forall t1 p1 middle t2 p2,
        SEQUENCE_EVENT_MODELS reg !! uuid_text idb = None ->
        let events := (t1, p1) :: middle ++ [(t2, p2)] in
        exists row,
          sequence reg req (sequence_record u idb events) w = (Ok row, add_row row w)
          /\ event_class row = UnknownSequence
          /\ event_attrs row !! "payload_data"
             = Some (PyBytes (raw (sequence_children events)))
          /\ event_attrs row !! "event_id" = Some (PyStr (uuid_text idb))).
Proof.
  intros Hlen. repeat split.
  - intros t p Hreg. rewrite new_singular_event_run by exact Hlen.
    cbv zeta. rewrite Hreg. eexists. repeat split; reflexivity.
  - intros c t p Hreg. rewrite new_aggregate_event_run by exact Hlen.
    cbv zeta. rewrite Hreg. eexists. repeat split; reflexivity.
  - intros t1 p1 middle t2 p2 Hreg events. unfold events.
    rewrite new_sequence_event_run by exact Hlen.
    cbv zeta. rewrite Hreg. eexists. repeat split; reflexivity.
Qed.

(** ** What Unknown and Invalid rows hold *)

(** C10. The payload_data of an Unknown or Invalid row is a byte string: it
    is the empty one where the reader exposes no bytes for the payload, and
    the exposed bytes otherwise.  For a sequence the payload is the child
    list. *)
Theorem payload_data_never_null (reg : Registry) (req : Request) (u : Z)
    (idb : bytes) (w : World) :
  length idb = 16%nat ->
  (forall payload w0,
      parse_raw payload w0 = (Ok {[ "payload_data" := PyBytes (raw payload) ]}, w0)
      /\ (get_data_as_bytes payload = None -> raw payload = []))
  /\ (forall t p,
        exists row w',
          singular reg req (singular_record u idb t p) w = (Ok row, w')
          /\ (outcome row <> KnownOutcome ->
              event_attrs row !! "payload_data" = Some (PyBytes (raw (GMaybe "v" p)))))
  /\ (forall c t p,
        exists row w',
          aggregate reg req (aggregate_record u idb c t p) w = (Ok row, w')
          /\ (outcome row <> KnownOutcome ->
              event_attrs row !! "payload_data" = Some (PyBytes (raw (GMaybe "v" p)))))
  /\ (forall events,
        exists row w',
          sequence reg req (sequence_record u idb events) w = (Ok row, w')
          /\ (outcome row <> KnownOutcome ->
              event_attrs row !! "payload_data"
              = Some (PyBytes (raw (sequence_children events))))).
Proof.
  intros Hlen. split; [|split; [|split]].
  - intros payload w0. split; [reflexivity|].
    unfold raw_bytes. intros ->. reflexivity.
  - intros t p. rewrite new_singular_event_run by exact Hlen.
    split_run (SINGULAR_EVENT_MODELS reg) (uuid_text idb) (GMaybe "v" p) w;
      do 2 eexists; (split; [reflexivity|]); intros Hout;
      try reflexivity; exfalso; apply Hout; reflexivity.
  - intros c t p. rewrite new_aggregate_event_run by exact Hlen.
    split_run (AGGREGATE_EVENT_MODELS reg) (uuid_text idb) (GMaybe "v" p) w;
      do 2 eexists; (split; [reflexivity|]); intros Hout;
      try reflexivity; exfalso; apply Hout; reflexivity.
  - intros events.
    destruct (sequence_shape events) as [Hshort|(t1 & p1 & middle & t2 & p2 & ->)].
    + rewrite new_sequence_event_short by assumption.
      do 2 eexists. split; reflexivity.
    + rewrite new_sequence_event_run by exact Hlen.
      split_run (SEQUENCE_EVENT_MODELS reg) (uuid_text idb) (GMaybe "v" p1) w;
        do 2 eexists; (split; [reflexivity|]); intros Hout;
        try reflexivity; exfalso; apply Hout; reflexivity.
Qed.

(** C8, as the code has it.  Unknown and Invalid rows of a singular event
    hold occured_at, those of an aggregate event occured_at and count.  The
    Unknown and Invalid rows of a sequence hold neither started_at nor
    stopped_at: they are the whole sequence, kept in payload_data. *)
Theorem unknown_invalid_category_fields (reg : Registry) (req : Request) (u : Z)
    (idb : bytes) (w : World) :
  length idb = 16%nat ->
  (forall t p,
      exists row w',
        singular reg req (singular_record u idb t p) w = (Ok row, w')
        /\ (outcome row <> KnownOutcome ->
            event_attrs row !! "occured_at" = Some (reconciled req t)
            /\ is_Some (event_attrs row !! "payload_data")))
  /\ (forall c t p,
        exists row w',
          aggregate reg req (aggregate_record u idb c t p) w = (Ok row, w')
          /\ (outcome row <> KnownOutcome ->
              event_attrs row !! "occured_at" = Some (reconciled req t)
              /\ event_attrs row !! "count" = Some (PyInt c)
              /\ is_Some (event_attrs row !! "payload_data")))
  /\ (forall events,
        exists row w',
          sequence reg req (sequence_record u idb events) w = (Ok row, w')
          /\ (outcome row <> KnownOutcome ->
              event_attrs row !! "started_at" = None
              /\ event_attrs row !! "stopped_at" = None
              /\ event_attrs row !! "payload_data"
                 = Some (PyBytes (raw (sequence_children events))))).
Proof.
  intros Hlen. split; [|split].
  - intros t p. rewrite new_singular_event_run by exact Hlen.
    split_run (SINGULAR_EVENT_MODELS reg) (uuid_text idb) (GMaybe "v" p) w;
      do 2 eexists; (split; [reflexivity|]); intros Hout;
      try (split; [reflexivity|eexists; reflexivity]);
      exfalso; apply Hout; reflexivity.
  - intros c t p. rewrite new_aggregate_event_run by exact Hlen.
    split_run (AGGREGATE_EVENT_MODELS reg) (uuid_text idb) (GMaybe "v" p) w;
      do 2 eexists; (split; [reflexivity|]); intros Hout;
      try (split; [reflexivity|split; [reflexivity|eexists; reflexivity]]);
      exfalso; apply Hout; reflexivity.
  - intros events.
    destruct (sequence_shape events) as [Hshort|(t1 & p1 & middle & t2 & p2 & ->)].
    + rewrite new_sequence_event_short by assumption.
      do 2 eexists. split; [reflexivity|]. intros _. repeat split; reflexivity.
    + rewrite new_sequence_event_run by exact Hlen.
      split_run (SEQUENCE_EVENT_MODELS reg) (uuid_text idb) (GMaybe "v" p1) w;
        do 2 eexists; (split; [reflexivity|]); intros Hout;
        try (repeat split; reflexivity);
        exfalso; apply Hout; reflexivity.
Qed.

(** ** Keywords of the rows: user id and timestamps *)

(** A payload field of a model with columns of its own never hides a
    keyword of the dispatcher. *)
Lemma known_keyword (cls : EventModel) payload w fields w' (keywords : Fields) key :
  own_columns cls ->
  parse_known cls payload w = (Ok fields, w') ->
  key ∈ dispatcher_keywords ->
  (fields ∪ keywords) !! key = keywords !! key.
Proof.
  intros Hown Hparse Hkey. apply lookup_union_r.
  destruct (parse_known_fields _ _ _ _ _ Hparse) as [->|[value Hvalue]].
  - apply lookup_empty.
  - eapply Hown; eassumption.
Qed.

Lemma in_dispatcher_keywords key :
  bool_decide (key ∈ dispatcher_keywords) = true -> key ∈ dispatcher_keywords.
Proof. apply bool_decide_eq_true_1. Qed.

Lemma uint32_fits_int64 (n : Z) : uint32_range n -> int64_range n.
Proof. unfold uint32_range, int64_range. lia. Qed.

(** C9. The user id read as a uint32 is the user_id of the row, as the
    same integer, and lies in the range of a signed 64-bit column: nothing
    wraps, 4294967295 stays 4294967295.  Registered models are taken to have
    payload columns of their own. *)
Theorem user_id_widening (reg : Registry) (req : Request) (u : Z) (idb : bytes)
    (w : World) :
  length idb = 16%nat ->
  uint32_range u ->
  registry_own_columns reg ->
  int64_range u
  /\ (forall t p,
        exists row w',
          singular reg req (singular_record u idb t p) w = (Ok row, w')
          /\ event_attrs row !! "user_id" = Some (PyInt u))
  /\ (forall c t p,
        exists row w',
          aggregate reg req (aggregate_record u idb c t p) w = (Ok row, w')
          /\ event_attrs row !! "user_id" = Some (PyInt u))
  /\ (forall events,
        exists row w',
          sequence reg req (sequence_record u idb events) w = (Ok row, w')
          /\ event_attrs row !! "user_id" = Some (PyInt u)).
Proof.
  intros Hlen Hu Hown. split; [apply uint32_fits_int64, Hu|]. split; [|split].
  - intros t p. rewrite new_singular_event_run by exact Hlen.
    split_run (SINGULAR_EVENT_MODELS reg) (uuid_text idb) (GMaybe "v" p) w;
      do 2 eexists; (split; [reflexivity|]); try reflexivity.
    cbn [event_attrs]. erewrite known_keyword; [reflexivity| |eassumption|].
    + eapply Hown; eauto.
    + apply in_dispatcher_keywords. reflexivity.
  - intros c t p. rewrite new_aggregate_event_run by exact Hlen.
    split_run (AGGREGATE_EVENT_MODELS reg) (uuid_text idb) (GMaybe "v" p) w;
      do 2 eexists; (split; [reflexivity|]); try reflexivity.
    cbn [event_attrs]. erewrite known_keyword; [reflexivity| |eassumption|].
    + eapply Hown; eauto.
    + apply in_dispatcher_keywords. reflexivity.
  - intros events.
    destruct (sequence_shape events) as [Hshort|(t1 & p1 & middle & t2 & p2 & ->)].
    + rewrite new_sequence_event_short by assumption.
      do 2 eexists. split; reflexivity.
    + rewrite new_sequence_event_run by exact Hlen.
      split_run (SEQUENCE_EVENT_MODELS reg) (uuid_text idb) (GMaybe "v" p1) w;
        do 2 eexists; (split; [reflexivity|]); try reflexivity.
      cbn [event_attrs]. erewrite known_keyword; [reflexivity| |eassumption|].
      * eapply Hown; eauto.
      * apply in_dispatcher_keywords. reflexivity.
Qed.

(** C4.  The reconciliation is request_absolute + (event_relative -
    request_relative): a zero delta gives the request's own time, a negative
    delta an earlier one, with no clamping.  The same function gives
    occured_at of every singular and aggregate row, and started_at and
    stopped_at of a Known sequence row, from the first and the last child.
    Registered models are taken to have payload columns of their own. *)
Theorem timestamps_reconciled (reg : Registry) (req : Request) (u : Z) (idb : bytes)
    (w : World) :
  length idb = 16%nat ->
  registry_own_columns reg ->
  (forall A R E, get_event_datetime A R E = A + (E - R))
  /\ (forall A R, get_event_datetime A R R = A
                  /\ get_event_datetime A R (R - 100) = A - 100
                  /\ get_event_datetime A R (R + 50) = A + 50)
  /\ (forall t p,
        exists row w',
          singular reg req (singular_record u idb t p) w = (Ok row, w')
          /\ event_attrs row !! "occured_at"
             = Some (PyDatetime (get_event_datetime (absolute_timestamp req)
                                   (relative_timestamp req) t)))
  /\ (forall c t p,
        exists row w',
          aggregate reg req (aggregate_record u idb c t p) w = (Ok row, w')
          /\ event_attrs row !! "occured_at"
             = Some (PyDatetime (get_event_datetime (absolute_timestamp req)
                                   (relative_timestamp req) t)))
  /\ (forall t1 p1 middle t2 p2,
        exists row w',
          sequence reg req (sequence_record u idb ((t1, p1) :: middle ++ [(t2, p2)])) w
          = (Ok row, w')
          /\ (outcome row = KnownOutcome ->
              event_attrs row !! "started_at"
              = Some (PyDatetime (get_event_datetime (absolute_timestamp req)
                                    (relative_timestamp req) t1))
              /\ event_attrs row !! "stopped_at"
                 = Some (PyDatetime (get_event_datetime (absolute_timestamp req)
                                       (relative_timestamp req) t2)))).
Proof.
  intros Hlen Hown.
  split; [reflexivity|].
  split; [intros A R; unfold get_event_datetime; lia|].
  split; [|split].
  - intros t p. rewrite new_singular_event_run by exact Hlen.
    split_run (SINGULAR_EVENT_MODELS reg) (uuid_text idb) (GMaybe "v" p) w;
      do 2 eexists; (split; [reflexivity|]); try reflexivity.
    cbn [event_attrs]. erewrite known_keyword; [reflexivity| |eassumption|].
    + eapply Hown; eauto.
    + apply in_dispatcher_keywords. reflexivity.
  - intros c t p. rewrite new_aggregate_event_run by exact Hlen.
    split_run (AGGREGATE_EVENT_MODELS reg) (uuid_text idb) (GMaybe "v" p) w;
      do 2 eexists; (split; [reflexivity|]); try reflexivity.
    cbn [event_attrs]. erewrite known_keyword; [reflexivity| |eassumption|].
    + eapply Hown; eauto.
    + apply in_dispatcher_keywords. reflexivity.
  - intros t1 p1 middle t2 p2. rewrite new_sequence_event_run by exact Hlen.
    split_run (SEQUENCE_EVENT_MODELS reg) (uuid_text idb) (GMaybe "v" p1) w;
      do 2 eexists; (split; [reflexivity|]); try discriminate.
    intros _. cbn [event_attrs]. split.
    + erewrite known_keyword; [reflexivity| |eassumption|].
      * eapply Hown; eauto.
      * apply in_dispatcher_keywords. reflexivity.
    + erewrite known_keyword; [reflexivity| |eassumption|].
      * eapply Hown; eauto.
      * apply in_dispatcher_keywords. reflexivity.
Qed.

(** ** Start, progress and stop children *)

(** C5, as the code has it.  Of a sequence of at least two children the
    first is the start and the last the stop.  The registered model parses
    the start child's payload and nothing else; when it succeeds the Known
    row is built from the parsed fields and the keywords request, user_id,
    started_at (reconciled from the start child) and stopped_at (from the
    stop child), whatever the progress children and the stop payload are.
    An Unknown or Invalid row instead keeps the serialised form of the whole
    child list, progress children included, as its payload_data. *)
Theorem sequence_start_stop (reg : Registry) (req : Request) (u : Z) (idb : bytes)
    (t1 : Z) (p1 : option Variant) (t2 : Z) (w : World) :
  length idb = 16%nat ->
  (forall cls fields w',
      SEQUENCE_EVENT_MODELS reg !! uuid_text idb = Some cls ->
      parse_known cls (GMaybe "v" p1) w = (Ok fields, w') ->
      forall middle p2,
        let row :=
          mkEvent (Known cls)
            (fields ∪ {[ "request" := PyRequest req; "user_id" := PyInt u;
                         "started_at" := reconciled req t1;
                         "stopped_at" := reconciled req t2 ]}) in
        sequence reg req (sequence_record u idb ((t1, p1) :: middle ++ [(t2, p2)])) w
        = (Ok row, add_row row w'))
  /\ (forall middle p2,
        exists row w',
          sequence reg req (sequence_record u idb ((t1, p1) :: middle ++ [(t2, p2)])) w
          = (Ok row, w')
          /\ (outcome row <> KnownOutcome ->
              event_attrs row !! "payload_data"
              = Some (PyBytes (raw (sequence_children
                                      ((t1, p1) :: middle ++ [(t2, p2)])))))).
Proof.
  intros Hlen. split.
  - intros cls fields w' Hreg Hparse middle p2.
    rewrite new_sequence_event_run by exact Hlen.
    cbv zeta. rewrite Hreg, Hparse. reflexivity.
  - intros middle p2. rewrite new_sequence_event_run by exact Hlen.
    split_run (SEQUENCE_EVENT_MODELS reg) (uuid_text idb) (GMaybe "v" p1) w;
      do 2 eexists; (split; [reflexivity|]); intros Hout;
      try reflexivity; exfalso; apply Hout; reflexivity.
Qed.

(** ** Further properties of the dispatchers *)

Lemma bind_lift_Raise {A B} (r : result A) (e : Exc) (k : A -> M B) :
  r = Raise e -> bind (lift r) k = raise e.
Proof. intros ->. reflexivity. Qed.

Lemma UUID_str_not_16 (b : bytes) :
  length b <> 16%nat -> UUID_str b = Raise (mkExc ValueError "bytes is not a 16-char string").
Proof.
  intros H. unfold UUID_str.
  destruct (Nat.eqb_spec (length b) 16) as [Heq|_]; [contradiction|reflexivity].
Qed.

(** X1.  An event id that is not 16 bytes long is not contained: the three
    dispatchers raise the [ValueError] of [UUID(bytes=...)], which sits
    before the [try], and leave the session and the log as they were. *)
Theorem malformed_event_id_raises (reg : Registry) (req : Request) (u : Z)
    (idb : bytes) (w : World) :
  length idb <> 16%nat ->
  let failure := mkExc ValueError "bytes is not a 16-char string" in
  (forall t p, singular reg req (singular_record u idb t p) w = (Raise failure, w))
  /\ (forall c t p, aggregate reg req (aggregate_record u idb c t p) w = (Raise failure, w))
  /\ (forall events, sequence reg req (sequence_record u idb events) w = (Raise failure, w)).
Proof.
  intros Hlen failure. repeat split; intros.
  - unfold new_singular_event, singular_record.
    rewrite (bind_lift_Ok _ u) by reflexivity.
    rewrite (bind_lift_Ok _ idb) by apply get_bytes_byte_array.
    rewrite (bind_lift_Raise _ failure) by (apply UUID_str_not_16; exact Hlen).
    reflexivity.
  - unfold new_aggregate_event, aggregate_record.
    rewrite (bind_lift_Ok _ u) by reflexivity.
    rewrite (bind_lift_Ok _ idb) by apply get_bytes_byte_array.
    rewrite (bind_lift_Raise _ failure) by (apply UUID_str_not_16; exact Hlen).
    reflexivity.
  - unfold new_sequence_event, sequence_record.
    rewrite (bind_lift_Ok _ u) by reflexivity.
    rewrite (bind_lift_Ok _ idb) by apply get_bytes_byte_array.
    rewrite (bind_lift_Raise _ failure) by (apply UUID_str_not_16; exact Hlen).
    reflexivity.
Qed.

Lemma parse_known_log cls payload w r w' :
  parse_known cls payload w = (r, w') ->
  log w' = log w
  \/ exists msg, log w' = (log w ++ [mkLog "ERROR" msg None])%list.
Proof.
  unfold MetricEvent__parse_payload.
  destruct (__payload_type__ cls) as [expected|], (get_maybe payload) as [v|];
    cbn zeta; try (intros [= <- <-]; left; reflexivity).
  - destruct (bool_decide _); intros [= <- <-]; left; reflexivity.
  - intros [= <- <-]. right. eexists. reflexivity.
Qed.

Lemma one_row_added_parsed cls payload w r w1 row :
  parse_known cls payload w = (r, w1) -> one_row_added w row (add_row row w1).
Proof.
  intros Hparse. split.
  - cbn [dbsession add_row]. rewrite (parse_known_dbsession _ _ _ _ _ Hparse). reflexivity.
  - cbn [log add_row]. destruct (parse_known_log _ _ _ _ _ Hparse) as [->|[msg ->]].
    + left. reflexivity.
    + right. eexists. split; reflexivity.
Qed.

Lemma one_row_added_logged cls payload w e w1 row msg :
  parse_known cls payload w = (Raise e, w1) ->
  one_row_added w row (add_row row (add_log (mkLog "ERROR" msg (Some e)) w1)).
Proof.
  intros Hparse. rewrite (parse_known_raise_world _ _ _ _ _ Hparse). split.
  - reflexivity.
  - right. eexists. split; reflexivity.
Qed.

Lemma one_row_added_plain w row : one_row_added w row (add_row row w).
Proof. split; [reflexivity|left; reflexivity]. Qed.

(** X2.  On a well-formed record each dispatcher returns a row, appends that
    row and nothing else to the session, after the rows already there, and
    writes at most one record, an error, to the log. *)
Theorem dispatch_adds_one_row (reg : Registry) (req : Request) (u : Z) (idb : bytes)
    (w : World) :
  length idb = 16%nat ->
  (forall t p,
      exists row w',
        singular reg req (singular_record u idb t p) w = (Ok row, w')
        /\ one_row_added w row w')
  /\ (forall c t p,
        exists row w',
          aggregate reg req (aggregate_record u idb c t p) w = (Ok row, w')
          /\ one_row_added w row w')
  /\ (forall events,
        exists row w',
          sequence reg req (sequence_record u idb events) w = (Ok row, w')
          /\ one_row_added w row w').
Proof.
  intros Hlen. split; [|split].
  - intros t p. rewrite new_singular_event_run by exact Hlen.
    split_run (SINGULAR_EVENT_MODELS reg) (uuid_text idb) (GMaybe "v" p) w;
      do 2 eexists; (split; [reflexivity|]);
      eauto using one_row_added_parsed, one_row_added_logged, one_row_added_plain.
  - intros c t p. rewrite new_aggregate_event_run by exact Hlen.
    split_run (AGGREGATE_EVENT_MODELS reg) (uuid_text idb) (GMaybe "v" p) w;
      do 2 eexists; (split; [reflexivity|]);
      eauto using one_row_added_parsed, one_row_added_logged, one_row_added_plain.
  - intros events.
    destruct (sequence_shape events) as [Hshort|(t1 & p1 & middle & t2 & p2 & ->)].
    + rewrite new_sequence_event_short by assumption.
      do 2 eexists. split; [reflexivity|apply one_row_added_plain].
    + rewrite new_sequence_event_run by exact Hlen.
      split_run (SEQUENCE_EVENT_MODELS reg) (uuid_text idb) (GMaybe "v" p1) w;
        do 2 eexists; (split; [reflexivity|]);
        eauto using one_row_added_parsed, one_row_added_logged, one_row_added_plain.
Qed.

(** X3.  Registration and dispatch compose: once a class is registered
    under the id of a record, in the category of the record, the dispatcher
    builds the row with that class, whatever the registry held before. *)
Theorem registered_model_is_dispatched (name : string) (bases : list BaseClass)
    (cls : EventModel) (reg : Registry) (req : Request) (u : Z) (idb : bytes)
    (w : World) :
  length idb = 16%nat ->
  let reg' := (MetricMeta___new__ name bases (Some (uuid_text idb)) cls reg).2 in
  (in_bases SingularEvent bases = true ->
   forall t p fields w',
     parse_known cls (GMaybe "v" p) w = (Ok fields, w') ->
     exists row,
       singular reg' req (singular_record u idb t p) w = (Ok row, add_row row w')
       /\ event_class row = Known cls
       /\ event_attrs row
          = fields ∪ {[ "request" := PyRequest req; "user_id" := PyInt u;
                        "occured_at" := reconciled req t ]})
  /\ (in_bases SingularEvent bases = false ->
      in_bases AggregateEvent bases = true ->
      forall c t p fields w',
        parse_known cls (GMaybe "v" p) w = (Ok fields, w') ->
        exists row,
          aggregate reg' req (aggregate_record u idb c t p) w = (Ok row, add_row row w')
          /\ event_class row = Known cls
          /\ event_attrs row
             = fields ∪ {[ "request" := PyRequest req; "user_id" := PyInt u;
                           "occured_at" := reconciled req t; "count" := PyInt c ]})
  /\ (in_bases SingularEvent bases = false ->
      in_bases AggregateEvent bases = false ->
      in_bases SequenceEvent bases = true ->
      forall t1 p1 middle t2 p2 fields w',
        parse_known cls (GMaybe "v" p1) w = (Ok fields, w') ->
        exists row,
          sequence reg' req (sequence_record u idb ((t1, p1) :: middle ++ [(t2, p2)])) w
          = (Ok row, add_row row w')
          /\ event_class row = Known cls
          /\ event_attrs row
             = fields ∪ {[ "request" := PyRequest req; "user_id" := PyInt u;
                           "started_at" := reconciled req t1;
                           "stopped_at" := reconciled req t2 ]}).
Proof.
  intros Hlen reg'. unfold reg', MetricMeta___new__. split; [|split].
  - intros -> t p fields w' Hparse. cbn [snd].
    rewrite new_singular_event_run by exact Hlen.
    cbv zeta. cbn [SINGULAR_EVENT_MODELS]. rewrite lookup_insert_eq, Hparse.
    eexists. repeat split; reflexivity.
  - intros -> -> c t p fields w' Hparse. cbn [snd].
    rewrite new_aggregate_event_run by exact Hlen.
    cbv zeta. cbn [AGGREGATE_EVENT_MODELS]. rewrite lookup_insert_eq, Hparse.
    eexists. repeat split; reflexivity.
  - intros -> -> -> t1 p1 middle t2 p2 fields w' Hparse. cbn [snd].
    rewrite new_sequence_event_run by exact Hlen.
    cbv zeta. cbn [SEQUENCE_EVENT_MODELS]. rewrite lookup_insert_eq, Hparse.
    eexists. repeat split; reflexivity.
Qed.

(** X4.  Registration is local to one category and one id: a class
    registered as a singular event changes nothing in how aggregate records
    and sequences are dispatched, nor in how singular records of any other id
    are. *)
Theorem registration_is_local (name : string) (bases : list BaseClass)
    (event_uuid : string) (cls : EventModel) (reg : Registry) :
  in_bases SingularEvent bases = true ->
  let reg' := (MetricMeta___new__ name bases (Some event_uuid) cls reg).2 in
  (forall req record, aggregate reg' req record = aggregate reg req record)
  /\ (forall req record, sequence reg' req record = sequence reg req record)
  /\ (forall req u idb t p w,
        length idb = 16%nat ->
        uuid_text idb <> event_uuid ->
        singular reg' req (singular_record u idb t p) w
        = singular reg req (singular_record u idb t p) w).
Proof.
  intros Hs reg'. unfold reg', MetricMeta___new__. rewrite Hs. cbn [snd].
  split; [|split].
  - intros req record. reflexivity.
  - intros req record. reflexivity.
  - intros req u idb t p w Hlen Hne.
    rewrite !new_singular_event_run by exact Hlen.
    cbv zeta. cbn [SINGULAR_EVENT_MODELS].
    rewrite lookup_insert_ne by (intros Heq; apply Hne; symmetry; exact Heq).
    reflexivity.
Qed.

Lemma parse_known_no_payload_type cls elem_type maybe w :
  __payload_type__ cls = None ->
  parse_known cls (GMaybe elem_type maybe) w = (Ok ∅, after_unexpected_payload print_ cls maybe w).
Proof.
  intros Hnone. unfold MetricEvent__parse_payload. rewrite Hnone.
  destruct maybe; reflexivity.
Qed.

(** X5.  A registered model that declares no payload type always gives a
    Known row made of the dispatcher's keywords alone: a payload that came
    with the record is dropped, at the price of one error record in the
    log. *)
Theorem no_payload_model_discards_payload (reg : Registry) (req : Request) (u : Z)
    (idb : bytes) (cls : EventModel) (w : World) :
  length idb = 16%nat ->
  __payload_type__ cls = None ->
  (forall t p,
      SINGULAR_EVENT_MODELS reg !! uuid_text idb = Some cls ->
      let row :=
        mkEvent (Known cls)
          {[ "request" := PyRequest req; "user_id" := PyInt u;
             "occured_at" := reconciled req t ]} in
      singular reg req (singular_record u idb t p) w
      = (Ok row, add_row row (after_unexpected_payload print_ cls p w)))
  /\ (forall c t p,
        AGGREGATE_EVENT_MODELS reg !! uuid_text idb = Some cls ->
        let row :=
          mkEvent (Known cls)
            {[ "request" := PyRequest req; "user_id" := PyInt u;
               "occured_at" := reconciled req t; "count" := PyInt c ]} in
        aggregate reg req (aggregate_record u idb c t p) w
        = (Ok row, add_row row (after_unexpected_payload print_ cls p w)))
  /\ (forall t1 p1 middle t2 p2,
        SEQUENCE_EVENT_MODELS reg !! uuid_text idb = Some cls ->
        let row :=
          mkEvent (Known cls)
            {[ "request" := PyRequest req; "user_id" := PyInt u;
               "started_at" := reconciled req t1; "stopped_at" := reconciled req t2 ]} in
        sequence reg req (sequence_record u idb ((t1, p1) :: middle ++ [(t2, p2)])) w
        = (Ok row, add_row row (after_unexpected_payload print_ cls p1 w))).
Proof.
  intros Hlen Hnone. split; [|split].
  - intros t p Hreg row. rewrite new_singular_event_run by exact Hlen.
    cbv zeta. rewrite Hreg, (parse_known_no_payload_type _ _ _ _ Hnone).
    unfold row, reconciled. rewrite (left_id_L ∅ (∪)). reflexivity.
  - intros c t p Hreg row. rewrite new_aggregate_event_run by exact Hlen.
    cbv zeta. rewrite Hreg, (parse_known_no_payload_type _ _ _ _ Hnone).
    unfold row, reconciled. rewrite (left_id_L ∅ (∪)). reflexivity.
  - intros t1 p1 middle t2 p2 Hreg row. rewrite new_sequence_event_run by exact Hlen.
    cbv zeta. rewrite Hreg, (parse_known_no_payload_type _ _ _ _ Hnone).
    unfold row, reconciled. rewrite (left_id_L ∅ (∪)). reflexivity.
Qed.

(** The [ValueError] a model with a declared payload type raises on [maybe]
    when the payload is missing or of another type. *)
Lemma parse_known_bad_payload cls expected elem_type maybe w :
  __payload_type__ cls = Some expected ->
  match maybe with
  | None => True
  | Some payload => get_type_string (get_variant payload) <> expected
  end ->
  let failure :=
    match maybe with
    | None => MissingPayload cls expected
    | Some payload => PayloadTypeMismatch print_ cls expected (get_variant payload)
    end in
  parse_known cls (GMaybe elem_type maybe) w = (Raise failure, w)
  /\ is_KeyError failure = false.
Proof.
  intros Hsome Hbad. unfold MetricEvent__parse_payload. rewrite Hsome.
  destruct maybe as [payload|]; cbn [get_maybe] in *.
  - cbn zeta. rewrite bool_decide_eq_true_2 by exact Hbad. split; reflexivity.
  - split; reflexivity.
Qed.

(** X6.  A registered model that declares a payload type, met with no
    payload or with a payload of another type: every dispatcher gives the
    Invalid row of its category, never the Unknown one; the row's error is
    the text of the [ValueError], and the log gets exactly one record, which
    carries that exception. *)
Theorem bad_payload_gives_invalid (reg : Registry) (req : Request) (u : Z) (idb : bytes)
    (cls : EventModel) (expected : string) (maybe : option Variant) (w : World) :
  length idb = 16%nat ->
  __payload_type__ cls = Some expected ->
  match maybe with
  | None => True
  | Some payload => get_type_string (get_variant payload) <> expected
  end ->
  let failure :=
    match maybe with
    | None => MissingPayload cls expected
    | Some payload => PayloadTypeMismatch print_ cls expected (get_variant payload)
    end in
  (forall t,
      SINGULAR_EVENT_MODELS reg !! uuid_text idb = Some cls ->
      exists row,
        singular reg req (singular_record u idb t maybe) w
        = (Ok row,
           add_row row
             (add_log (mkLog "ERROR" "An error occured while processing the event:"
                         (Some failure)) w))
        /\ event_class row = InvalidSingularEvent
        /\ event_attrs row !! "error" = Some (PyStr (exc_str failure)))
  /\ (forall c t,
        AGGREGATE_EVENT_MODELS reg !! uuid_text idb = Some cls ->
        exists row,
          aggregate reg req (aggregate_record u idb c t maybe) w
          = (Ok row,
             add_row row
               (add_log (mkLog "ERROR" "An error occured while processing the aggregate:"
                           (Some failure)) w))
          /\ event_class row = InvalidAggregateEvent
          /\ event_attrs row !! "error" = Some (PyStr (exc_str failure)))
  /\ (forall t1 middle t2 p2,
        SEQUENCE_EVENT_MODELS reg !! uuid_text idb = Some cls ->
        exists row,
          sequence reg req (sequence_record u idb ((t1, maybe) :: middle ++ [(t2, p2)])) w
          = (Ok row,
             add_row row
               (add_log (mkLog "ERROR" "An error occured while processing the sequence:"
                           (Some failure)) w))
          /\ event_class row = InvalidSequence
          /\ event_attrs row !! "error" = Some (PyStr (exc_str failure))).
Proof.
  intros Hlen Hsome Hbad failure.
  destruct (parse_known_bad_payload cls expected "v" maybe w Hsome Hbad) as [Hparse Hk].
  fold failure in Hparse, Hk.
  split; [|split].
  - intros t Hreg. rewrite new_singular_event_run by exact Hlen.
    cbv zeta. rewrite Hreg, Hparse, Hk. eexists. repeat split; reflexivity.
  - intros c t Hreg. rewrite new_aggregate_event_run by exact Hlen.
    cbv zeta. rewrite Hreg, Hparse, Hk. eexists. repeat split; reflexivity.
  - intros t1 middle t2 p2 Hreg. rewrite new_sequence_event_run by exact Hlen.
    cbv zeta. rewrite Hreg, Hparse, Hk. eexists. repeat split; reflexivity.
Qed.

(** X7.  Unknown and Invalid rows hold the raw payload and the
    dispatcher's keywords and no other column: five columns for an unknown
    singular event, six for an unknown aggregate, four for an unknown
    sequence, and one more, error, for their Invalid rows. *)
Theorem unknown_invalid_columns (reg : Registry) (req : Request) (u : Z) (idb : bytes)
    (w : World) :
  length idb = 16%nat ->
  (forall t p,
      exists row w',
        singular reg req (singular_record u idb t p) w = (Ok row, w')
        /\ (outcome row = UnknownOutcome ->
            dom (event_attrs row)
            = ({[ "payload_data"; "request"; "user_id"; "occured_at"; "event_id" ]}
               : gset string))
        /\ (outcome row = InvalidOutcome ->
            dom (event_attrs row)
            = ({[ "payload_data"; "request"; "user_id"; "occured_at"; "event_id";
                  "error" ]} : gset string)))
  /\ (forall c t p,
        exists row w',
          aggregate reg req (aggregate_record u idb c t p) w = (Ok row, w')
          /\ (outcome row = UnknownOutcome ->
              dom (event_attrs row)
              = ({[ "payload_data"; "request"; "user_id"; "occured_at"; "count";
                    "event_id" ]} : gset string))
          /\ (outcome row = InvalidOutcome ->
              dom (event_attrs row)
              = ({[ "payload_data"; "request"; "user_id"; "occured_at"; "count";
                    "event_id"; "error" ]} : gset string)))
  /\ (forall events,
        exists row w',
          sequence reg req (sequence_record u idb events) w = (Ok row, w')
          /\ (outcome row = UnknownOutcome ->
              dom (event_attrs row)
              = ({[ "payload_data"; "request"; "user_id"; "event_id" ]} : gset string))
          /\ (outcome row = InvalidOutcome ->
              dom (event_attrs row)
              = ({[ "payload_data"; "request"; "user_id"; "event_id"; "error" ]}
                 : gset string))).
Proof.
  intros Hlen. split; [|split].
  - intros t p. rewrite new_singular_event_run by exact Hlen.
    split_run (SINGULAR_EVENT_MODELS reg) (uuid_text idb) (GMaybe "v" p) w;
      do 2 eexists; (split; [reflexivity|]);
      (split; intros Hout; try discriminate Hout);
      cbn [event_attrs]; rewrite dom_union_L, !dom_insert_L, !dom_singleton_L;
      set_solver.
  - intros c t p. rewrite new_aggregate_event_run by exact Hlen.
    split_run (AGGREGATE_EVENT_MODELS reg) (uuid_text idb) (GMaybe "v" p) w;
      do 2 eexists; (split; [reflexivity|]);
      (split; intros Hout; try discriminate Hout);
      cbn [event_attrs]; rewrite dom_union_L, !dom_insert_L, !dom_singleton_L;
      set_solver.
  - intros events.
    destruct (sequence_shape events) as [Hshort|(t1 & p1 & middle & t2 & p2 & ->)].
    + rewrite new_sequence_event_short by assumption.
      do 2 eexists. split; [reflexivity|].
      split; intros Hout; try discriminate Hout.
      cbn [event_attrs]. rewrite dom_union_L, !dom_insert_L, !dom_singleton_L.
      set_solver.
    + rewrite new_sequence_event_run by exact Hlen.
      split_run (SEQUENCE_EVENT_MODELS reg) (uuid_text idb) (GMaybe "v" p1) w;
        do 2 eexists; (split; [reflexivity|]);
        (split; intros Hout; try discriminate Hout);
        cbn [event_attrs]; rewrite dom_union_L, !dom_insert_L, !dom_singleton_L;
        set_solver.
Qed.

(** X8.  The count of an aggregate record is stored as it came, negative or
    not, in every row the aggregate dispatcher builds.  Registered models
    are taken to have payload columns of their own. *)
Theorem aggregate_count_verbatim (reg : Registry) (req : Request) (u : Z) (idb : bytes)
    (c t : Z) (p : option Variant) (w : World) :
  length idb = 16%nat ->
  registry_own_columns reg ->
  exists row w',
    aggregate reg req (aggregate_record u idb c t p) w = (Ok row, w')
    /\ event_attrs row !! "count" = Some (PyInt c).
Proof.
  intros Hlen Hown. rewrite new_aggregate_event_run by exact Hlen.
  split_run (AGGREGATE_EVENT_MODELS reg) (uuid_text idb) (GMaybe "v" p) w;
    do 2 eexists; (split; [reflexivity|]); try reflexivity.
  cbn [event_attrs]. erewrite known_keyword; [reflexivity| |eassumption|].
  - eapply Hown; eauto.
  - apply in_dispatcher_keywords. reflexivity.
Qed.

End Classification.

(** ** Registration *)

(** C7, as the code has it.  Registering a model under an id never fails
    because the id is taken: with a category among its bases the class is
    returned and stored under the id in the registry of that category (the
    first of singular, aggregate, sequence that is listed), in place of any
    model stored there before; other ids and the two other registries are
    untouched. *)
Theorem registration_replaces (name : string) (bases : list BaseClass)
    (event_uuid : string) (cls : EventModel) (reg : Registry) :
  in_bases SingularEvent bases = true
  \/ in_bases AggregateEvent bases = true
  \/ in_bases SequenceEvent bases = true ->
  exists reg',
    MetricMeta___new__ name bases (Some event_uuid) cls reg = (Ok cls, reg')
    /\ ((in_bases SingularEvent bases = true
         /\ SINGULAR_EVENT_MODELS reg' = <[event_uuid := cls]> (SINGULAR_EVENT_MODELS reg)
         /\ SINGULAR_EVENT_MODELS reg' !! event_uuid = Some cls
         /\ AGGREGATE_EVENT_MODELS reg' = AGGREGATE_EVENT_MODELS reg
         /\ SEQUENCE_EVENT_MODELS reg' = SEQUENCE_EVENT_MODELS reg)
        \/ (in_bases SingularEvent bases = false
            /\ in_bases AggregateEvent bases = true
            /\ AGGREGATE_EVENT_MODELS reg'
               = <[event_uuid := cls]> (AGGREGATE_EVENT_MODELS reg)
            /\ AGGREGATE_EVENT_MODELS reg' !! event_uuid = Some cls
            /\ SINGULAR_EVENT_MODELS reg' = SINGULAR_EVENT_MODELS reg
            /\ SEQUENCE_EVENT_MODELS reg' = SEQUENCE_EVENT_MODELS reg)
        \/ (in_bases SingularEvent bases = false
            /\ in_bases AggregateEvent bases = false
            /\ SEQUENCE_EVENT_MODELS reg'
               = <[event_uuid := cls]> (SEQUENCE_EVENT_MODELS reg)
            /\ SEQUENCE_EVENT_MODELS reg' !! event_uuid = Some cls
            /\ SINGULAR_EVENT_MODELS reg' = SINGULAR_EVENT_MODELS reg
            /\ AGGREGATE_EVENT_MODELS reg' = AGGREGATE_EVENT_MODELS reg)).
Proof.
  intros Hbases. unfold MetricMeta___new__.
  destruct (in_bases SingularEvent bases) eqn:Hs.
  - eexists. split; [reflexivity|]. left. cbn.
    repeat split; try reflexivity. apply lookup_insert_eq.
  - destruct (in_bases AggregateEvent bases) eqn:Ha.
    + eexists. split; [reflexivity|]. right. left. cbn.
      repeat split; try reflexivity. apply lookup_insert_eq.
    + destruct (in_bases SequenceEvent bases) eqn:Hq.
      * eexists. split; [reflexivity|]. right. right. cbn.
        repeat split; try reflexivity. apply lookup_insert_eq.
      * destruct Hbases as [H|[H|H]]; discriminate.
Qed.

(** ** The dispatchers on sample records *)

Lemma uuid_text_zero_id : uuid_text zero_id = zero_uuid.
Proof. vm_compute. reflexivity. Qed.

Lemma sample_registry_own_columns : registry_own_columns sample_registry.
Proof.
  assert (own_columns image_version_model) as Hown.
  { intros payload fields key Hfields Hkey.
    destruct payload; try discriminate. injection Hfields as <-.
    unfold dispatcher_keywords in Hkey.
    repeat (apply elem_of_cons in Hkey as [->|Hkey]; [reflexivity|]).
    inversion Hkey. }
  intros event_id cls [H|[H|H]]; cbn in H;
    apply lookup_singleton_Some in H as [_ <-]; exact Hown.
Qed.

(** C1.  A registered model whose field extraction raises a [KeyError]: the
    singular dispatcher takes the exception for a missing registry entry and
    returns the Unknown row, with no error text and nothing logged, where an
    Invalid row carrying the message is due. *)
Theorem keyerror_from_model_gives_unknown :
  exists row w',
    new_singular_event sample_get_data_as_bytes sample_print unbox lookup_registry
      sample_request (singular_record 7 zero_id 5 (Some (GBox (GString "x"))))
      empty_world
    = (Ok row, w')
    /\ SINGULAR_EVENT_MODELS lookup_registry !! uuid_text zero_id = Some lookup_model
    /\ _get_fields_from_payload lookup_model (unbox (GBox (GString "x")))
       = Raise (mkExc KeyError "'channel'")
    /\ event_class row = UnknownSingularEvent
    /\ event_attrs row !! "error" = None
    /\ log w' = [].
Proof.
  do 2 eexists. split; [vm_compute; reflexivity|].
  repeat split; vm_compute; reflexivity.
Qed.

(** The same record against a model that raises a [ValueError] gives the
    Invalid row with the message. *)
Example valueerror_from_model_gives_invalid :
  exists row w',
    new_singular_event sample_get_data_as_bytes sample_print unbox failing_registry
      sample_request (singular_record 7 zero_id 5 (Some (GBox (GString "x"))))
      empty_world
    = (Ok row, w')
    /\ event_class row = InvalidSingularEvent
    /\ event_attrs row !! "error" = Some (PyStr "invalid literal")
    /\ length (log w') = 1%nat.
Proof.
  do 2 eexists. split; [vm_compute; reflexivity|].
  repeat split; vm_compute; reflexivity.
Qed.

(** A sequence of one child with an id no registry knows: Invalid, not
    Unknown. *)
Lemma unregistered_short_sequence_is_invalid :
  exists row w',
    new_sequence_event sample_get_data_as_bytes sample_print unbox empty_registry
      sample_request (sequence_record 7 zero_id [(5, None)]) empty_world
    = (Ok row, w')
    /\ SEQUENCE_EVENT_MODELS empty_registry !! uuid_text zero_id = None
    /\ event_class row = InvalidSequence
    /\ outcome row <> UnknownOutcome.
Proof.
  do 2 eexists. split; [vm_compute; reflexivity|].
  repeat split; try (vm_compute; reflexivity). discriminate.
Qed.

(** Two sequences that differ in their progress child only give Unknown
    rows of different payload_data: the progress child is in the row. *)
Lemma progress_child_kept_in_unknown_sequence :
  exists row_a row_b w_a w_b,
    new_sequence_event sample_get_data_as_bytes sample_print unbox empty_registry
      sample_request
      (sequence_record 7 zero_id [(5, None); (6, Some (GBox (GUint32 3))); (9, None)])
      empty_world
    = (Ok row_a, w_a)
    /\ new_sequence_event sample_get_data_as_bytes sample_print unbox empty_registry
         sample_request
         (sequence_record 7 zero_id [(5, None); (6, Some (GBox (GUint32 4))); (9, None)])
         empty_world
       = (Ok row_b, w_b)
    /\ event_class row_a = UnknownSequence
    /\ event_attrs row_a !! "payload_data"
       = Some (PyBytes (sample_data
                          (sequence_children
                             [(5, None); (6, Some (GBox (GUint32 3))); (9, None)])))
    /\ event_attrs row_a !! "payload_data" <> event_attrs row_b !! "payload_data".
Proof.
  do 4 eexists. split; [vm_compute; reflexivity|].
  split; [vm_compute; reflexivity|].
  split; [reflexivity|].
  split; [vm_compute; reflexivity|].
  vm_compute. discriminate.
Qed.

(** The Unknown row of a sequence has no started_at and no stopped_at. *)
Lemma unknown_sequence_has_no_timestamps :
  exists row w',
    new_sequence_event sample_get_data_as_bytes sample_print unbox empty_registry
      sample_request (sequence_record 7 zero_id [(5, None); (9, None)]) empty_world
    = (Ok row, w')
    /\ event_class row = UnknownSequence
    /\ event_attrs row !! "started_at" = None
    /\ event_attrs row !! "stopped_at" = None.
Proof.
  do 2 eexists. split; [vm_compute; reflexivity|].
  repeat split; vm_compute; reflexivity.
Qed.

(** Registering a second model under an id already taken succeeds and
    replaces the first. *)
Lemma second_registration_replaces_first :
  exists reg1 reg2,
    MetricMeta___new__ "ImageVersion" [SingularEvent] (Some zero_uuid)
      image_version_model empty_registry
    = (Ok image_version_model, reg1)
    /\ __name__ <$> SINGULAR_EVENT_MODELS reg1 !! zero_uuid = Some "ImageVersion"
    /\ MetricMeta___new__ "StrictEvent" [SingularEvent] (Some zero_uuid)
         failing_model reg1
       = (Ok failing_model, reg2)
    /\ __name__ <$> SINGULAR_EVENT_MODELS reg2 !! zero_uuid = Some "StrictEvent".
Proof.
  do 2 eexists. split; [vm_compute; reflexivity|].
  repeat split; vm_compute; reflexivity.
Qed.

(** ** The theorems at sample records *)

Lemma parse_payload_rules_witness :
  MetricEvent__parse_payload sample_print unbox image_version_model
    (GMaybe "v" (Some (GBox (GUint32 3)))) empty_world
  = (Raise (PayloadTypeMismatch sample_print image_version_model "s" (GUint32 3)),
     empty_world)
  /\ MetricEvent__parse_payload sample_print unbox image_version_model
       (GMaybe "v" (Some (GBox (GString "3.9")))) empty_world
     = (Ok {[ "image_version" := PyStr "3.9" ]}, empty_world)
  /\ MetricEvent__parse_payload sample_print unbox image_version_model
       (GMaybe "v" None) empty_world
     = (Raise (MissingPayload image_version_model "s"), empty_world)
  /\ fst (MetricEvent__parse_payload sample_print unbox no_payload_model
            (GMaybe "v" (Some (GBox (GString "3.9")))) empty_world)
     = Ok ∅.
Proof.
  split; [|split; [|split]].
  - apply (proj1 (parse_payload_rules sample_print unbox image_version_model "v"
                    (Some (GBox (GUint32 3))) empty_world)).
    vm_compute. discriminate.
  - apply (proj2 (parse_payload_rules sample_print unbox image_version_model "v"
                    (Some (GBox (GString "3.9"))) empty_world)).
    vm_compute. reflexivity.
  - exact (parse_payload_rules sample_print unbox image_version_model "v" None empty_world).
  - rewrite (parse_payload_rules sample_print unbox no_payload_model "v"
               (Some (GBox (GString "3.9"))) empty_world).
    reflexivity.
Defined.

Lemma short_sequence_invalid_witness :
  exists row,
    new_sequence_event sample_get_data_as_bytes sample_print unbox sample_registry
      sample_request (sequence_record 7 zero_id [(5, None)]) empty_world
    = (Ok row, add_row row empty_world)
    /\ event_class row = InvalidSequence
    /\ event_attrs row !! "error"
       = Some (PyStr "Sequence must have at least 2 elements, but only had 1").
Proof.
  destruct (short_sequence_invalid sample_get_data_as_bytes sample_print unbox
              sample_registry empty_registry sample_request 7 zero_id [(5, None)]
              empty_world eq_refl ltac:(simpl; lia))
    as (row & Hrun & _ & Hclass & _ & Herror & _).
  exists row. split; [exact Hrun|]. split; [exact Hclass|exact Herror].
Defined.

Lemma unknown_type_keeps_payload_witness :
  (exists row,
      new_singular_event sample_get_data_as_bytes sample_print unbox empty_registry
        sample_request (singular_record 7 zero_id 5 (Some (GBox (GString "hi"))))
        empty_world
      = (Ok row, add_row row empty_world)
      /\ event_class row = UnknownSingularEvent
      /\ event_attrs row !! "payload_data"
         = Some (PyBytes (sample_data (GMaybe "v" (Some (GBox (GString "hi")))))))
  /\ (exists row,
        new_aggregate_event sample_get_data_as_bytes sample_print unbox empty_registry
          sample_request (aggregate_record 7 zero_id 12 5 None) empty_world
        = (Ok row, add_row row empty_world)
        /\ event_class row = UnknownAggregateEvent
        /\ event_attrs row !! "payload_data" = Some (PyBytes []))
  /\ (exists row,
        new_sequence_event sample_get_data_as_bytes sample_print unbox empty_registry
          sample_request (sequence_record 7 zero_id [(5, None); (9, None)]) empty_world
        = (Ok row, add_row row empty_world)
        /\ event_class row = UnknownSequence
        /\ event_attrs row !! "event_id" = Some (PyStr zero_uuid)).
Proof.
  destruct (unknown_type_keeps_payload sample_get_data_as_bytes sample_print unbox
              empty_registry sample_request 7 zero_id empty_world eq_refl)
    as (Hsingular & Haggregate & Hsequence).
  split; [|split].
  - destruct (Hsingular 5 (Some (GBox (GString "hi"))) eq_refl)
      as (row & Hrun & Hclass & Hdata & _).
    exists row. split; [exact Hrun|]. split; [exact Hclass|]. rewrite Hdata. reflexivity.
  - destruct (Haggregate 12 5 None eq_refl) as (row & Hrun & Hclass & Hdata & _).
    exists row. split; [exact Hrun|]. split; [exact Hclass|]. rewrite Hdata. reflexivity.
  - destruct (Hsequence 5 None [] 9 None eq_refl) as (row & Hrun & Hclass & _ & Hid).
    exists row. split; [exact Hrun|]. split; [exact Hclass|].
    rewrite Hid, uuid_text_zero_id. reflexivity.
Defined.

Lemma payload_data_never_null_witness :
  sample_get_data_as_bytes (GMaybe "v" None) = None
  /\ exists row w',
      new_singular_event sample_get_data_as_bytes sample_print unbox empty_registry
        sample_request (singular_record 7 zero_id 5 None) empty_world
      = (Ok row, w')
      /\ event_attrs row !! "payload_data" = Some (PyBytes []).
Proof.
  split; [reflexivity|].
  destruct (payload_data_never_null sample_get_data_as_bytes sample_print unbox
              empty_registry sample_request 7 zero_id empty_world eq_refl)
    as (_ & Hsingular & _).
  destruct (Hsingular 5 None) as (row & w' & Hrun & Hdata).
  exists row, w'. split; [exact Hrun|].
  rewrite Hdata; [reflexivity|].
  vm_compute in Hrun. injection Hrun as <- _. discriminate.
Defined.

Lemma unknown_invalid_category_fields_witness :
  (exists row w',
      new_aggregate_event sample_get_data_as_bytes sample_print unbox failing_registry
        sample_request (aggregate_record 7 zero_id 12 5 (Some (GBox (GString "x"))))
        empty_world
      = (Ok row, w')
      /\ event_attrs row !! "occured_at" = Some (PyDatetime 995)
      /\ event_attrs row !! "count" = Some (PyInt 12))
  /\ (exists row w',
        new_sequence_event sample_get_data_as_bytes sample_print unbox empty_registry
          sample_request (sequence_record 7 zero_id [(5, None); (9, None)]) empty_world
        = (Ok row, w')
        /\ event_attrs row !! "started_at" = None
        /\ event_attrs row !! "stopped_at" = None).
Proof.
  destruct (unknown_invalid_category_fields sample_get_data_as_bytes sample_print unbox
              failing_registry sample_request 7 zero_id empty_world eq_refl)
    as (_ & Haggregate & _).
  destruct (unknown_invalid_category_fields sample_get_data_as_bytes sample_print unbox
              empty_registry sample_request 7 zero_id empty_world eq_refl)
    as (_ & _ & Hsequence).
  split.
  - destruct (Haggregate 12 5 (Some (GBox (GString "x")))) as (row & w' & Hrun & Hfields).
    exists row, w'. split; [exact Hrun|].
    destruct Hfields as (Hat & Hcount & _).
    { vm_compute in Hrun. injection Hrun as <- _. discriminate. }
    split; [exact Hat|exact Hcount].
  - destruct (Hsequence [(5, None); (9, None)]) as (row & w' & Hrun & Hfields).
    exists row, w'. split; [exact Hrun|].
    destruct Hfields as (Hstart & Hstop & _).
    { vm_compute in Hrun. injection Hrun as <- _. discriminate. }
    split; [exact Hstart|exact Hstop].
Defined.

Lemma user_id_widening_witness :
  int64_range 4294967295
  /\ exists row w',
      new_singular_event sample_get_data_as_bytes sample_print unbox sample_registry
        sample_request (singular_record 4294967295 zero_id 5 (Some (GBox (GString "3.9"))))
        empty_world
      = (Ok row, w')
      /\ event_attrs row !! "user_id" = Some (PyInt 4294967295).
Proof.
  destruct (user_id_widening sample_get_data_as_bytes sample_print unbox sample_registry
              sample_request 4294967295 zero_id empty_world eq_refl
              ltac:(unfold uint32_range; lia) sample_registry_own_columns)
    as (Hrange & Hsingular & _).
  split; [exact Hrange|].
  exact (Hsingular 5 (Some (GBox (GString "3.9")))).
Defined.

Lemma timestamps_reconciled_witness :
  (exists row w',
      new_singular_event sample_get_data_as_bytes sample_print unbox sample_registry
        sample_request (singular_record 7 zero_id 5 (Some (GBox (GString "3.9"))))
        empty_world
      = (Ok row, w')
      /\ event_attrs row !! "occured_at" = Some (PyDatetime 995))
  /\ (exists row w',
        new_sequence_event sample_get_data_as_bytes sample_print unbox sample_registry
          sample_request
          (sequence_record 7 zero_id
             [(5, Some (GBox (GString "3.9"))); (6, None); (1010, None)])
          empty_world
        = (Ok row, w')
        /\ event_attrs row !! "started_at" = Some (PyDatetime 995)
        /\ event_attrs row !! "stopped_at" = Some (PyDatetime 2000)).
Proof.
  destruct (timestamps_reconciled sample_get_data_as_bytes sample_print unbox
              sample_registry sample_request 7 zero_id empty_world eq_refl
              sample_registry_own_columns)
    as (_ & _ & Hsingular & _ & Hsequence).
  split.
  - exact (Hsingular 5 (Some (GBox (GString "3.9")))).
  - destruct (Hsequence 5 (Some (GBox (GString "3.9"))) [(6, None)] 1010 None)
      as (row & w' & Hrun & Htimes).
    exists row, w'. split; [exact Hrun|].
    apply Htimes. vm_compute in Hrun. injection Hrun as <- _. reflexivity.
Defined.

Lemma sequence_start_stop_witness :
  exists row w',
    new_sequence_event sample_get_data_as_bytes sample_print unbox sample_registry
      sample_request
      (sequence_record 7 zero_id
         [(5, Some (GBox (GString "3.9"))); (6, Some (GBox (GUint32 3))); (1010, None)])
      empty_world
    = (Ok row, w')
    /\ new_sequence_event sample_get_data_as_bytes sample_print unbox sample_registry
         sample_request
         (sequence_record 7 zero_id
            [(5, Some (GBox (GString "3.9"))); (1010, Some (GBox (GUint32 4)))])
         empty_world
       = (Ok row, w')
    /\ event_class row = Known image_version_model
    /\ event_attrs row !! "image_version" = Some (PyStr "3.9").
Proof.
  destruct (sequence_start_stop sample_get_data_as_bytes sample_print unbox sample_registry
              sample_request 7 zero_id 5 (Some (GBox (GString "3.9"))) 1010 empty_world
              eq_refl)
    as (Hknown & _).
  specialize (Hknown image_version_model {[ "image_version" := PyStr "3.9" ]} empty_world
                eq_refl eq_refl).
  do 2 eexists.
  split; [exact (Hknown [(6, Some (GBox (GUint32 3)))] None)|].
  split; [exact (Hknown [] (Some (GBox (GUint32 4))))|].
  split; reflexivity.
Defined.

Lemma registration_replaces_witness :
  exists reg',
    MetricMeta___new__ "StrictEvent" [OtherBase "Base"; AggregateEvent] (Some zero_uuid)
      failing_model sample_registry
    = (Ok failing_model, reg')
    /\ AGGREGATE_EVENT_MODELS sample_registry !! zero_uuid = Some image_version_model
    /\ AGGREGATE_EVENT_MODELS reg' !! zero_uuid = Some failing_model.
Proof.
  destruct (registration_replaces "StrictEvent" [OtherBase "Base"; AggregateEvent]
              zero_uuid failing_model sample_registry (or_intror (or_introl eq_refl)))
    as (reg' & Hrun & [(Hs & _)|[(_ & _ & _ & Hlookup & _)|(_ & Ha & _)]]);
    try discriminate.
  exists reg'. split; [exact Hrun|]. split; [reflexivity|exact Hlookup].
Defined.

(** * Properties of azafea/logging.py *)

Lemma reset_loop (copy : list Handler) (st : Logging) :
  root_handlers st = copy ->
  fold_left (fun st handler => removeHandler handler (Handler_close handler st)) copy st
  = mkLogging [] (root_level st) (logger_levels st) (closed_handlers st ++ copy)%list
              (warnings_filters st).
Proof.
  revert st. induction copy as [|h copy IH]; intros st Hroot.
  - destruct st as [handlers level levels closed filters]. cbn in *. subst handlers.
    rewrite app_nil_r. reflexivity.
  - cbn [fold_left]. rewrite IH.
    + cbn. rewrite <- app_assoc. reflexivity.
    + unfold removeHandler, Handler_close. cbn [root_handlers]. rewrite Hroot.
      rewrite bool_decide_eq_true_2 by apply list_elem_of_here.
      cbn [list_remove]. rewrite decide_True by reflexivity. reflexivity.
Qed.

Lemma _reset_logging_eq (st : Logging) :
  _reset_logging st
  = mkLogging [] (root_level st) (logger_levels st)
              (closed_handlers st ++ root_handlers st)%list (warnings_filters st).
Proof. unfold _reset_logging. apply reset_loop. reflexivity. Qed.

(** X9.  [_reset_logging] leaves the root logger without any handler and
    closes each handler it had, once and in order, also when a handler is
    listed twice; levels and warning filters stay as they were. *)
Theorem reset_logging_removes_every_handler (st : Logging) :
  root_handlers (_reset_logging st) = []
  /\ closed_handlers (_reset_logging st) = (closed_handlers st ++ root_handlers st)%list
  /\ root_level (_reset_logging st) = root_level st
  /\ logger_levels (_reset_logging st) = logger_levels st
  /\ warnings_filters (_reset_logging st) = warnings_filters st.
Proof. rewrite _reset_logging_eq. repeat split; reflexivity. Qed.

Lemma setup_logging_root (verbose : bool) (st : Logging) :
  root_handlers (setup_logging verbose st)
  = [mkHandler sys_stdout DEBUG [StdoutFilter] (Some format_);
     mkHandler sys_stderr WARNING [] (Some format_)]
  /\ root_level (setup_logging verbose st) = (if verbose then DEBUG else INFO).
Proof.
  unfold setup_logging. rewrite _reset_logging_eq.
  destruct verbose; split; reflexivity.
Qed.

Lemma setup_logging_levels (verbose : bool) (st : Logging) :
  logger_levels (setup_logging verbose st)
  = if verbose
    then <["flake8" := WARNING]> (<["filelock" := WARNING]>
           (<["sqlalchemy" := DEBUG]> (logger_levels st)))
    else logger_levels st.
Proof.
  unfold setup_logging. rewrite _reset_logging_eq. destruct verbose; reflexivity.
Qed.

(** X10.  Whatever handlers the root logger had, after [setup_logging] it
    has exactly two: one on stdout at level DEBUG with the stdout filter, one
    on stderr at level WARNING, both with the bracketed format; its level is
    DEBUG when verbose and INFO otherwise.  Calling it again gives the same
    two handlers, not four. *)
Theorem setup_logging_installs_two_handlers (verbose again : bool) (st : Logging) :
  let installed :=
    [mkHandler sys_stdout DEBUG [StdoutFilter] (Some format_);
     mkHandler sys_stderr WARNING [] (Some format_)] in
  root_handlers (setup_logging verbose st) = installed
  /\ root_level (setup_logging verbose st) = (if verbose then DEBUG else INFO)
  /\ root_handlers (setup_logging again (setup_logging verbose st)) = installed
  /\ root_level (setup_logging again (setup_logging verbose st))
     = (if again then DEBUG else INFO).
Proof.
  cbv zeta.
  destruct (setup_logging_root verbose st) as [H1 H2].
  destruct (setup_logging_root again (setup_logging verbose st)) as [H3 H4].
  repeat split; assumption.
Qed.

Lemma callHandlers_installed (st : Logging) (record : PyLogRecord) :
  root_handlers st
  = [mkHandler sys_stdout DEBUG [StdoutFilter] (Some format_);
     mkHandler sys_stderr WARNING [] (Some format_)] ->
  let line := "[" ++ levelname record ++ "] " ++ name record ++ ": " ++ message record in
  callHandlers st record
  = if (levelno record <? DEBUG)%Z then []
    else if (levelno record <=? INFO)%Z then [(sys_stdout, line)]
    else if (levelno record <? WARNING)%Z then []
    else [(sys_stderr, line)].
Proof.
  intros Hroot line. unfold callHandlers. rewrite Hroot.
  cbn [flat_map handler_level handler_filters handler_stream forallb Filter_filter].
  unfold StdoutFilter_filter, DEBUG, INFO, WARNING.
  destruct (Z.ltb_spec (levelno record) 10), (Z.leb_spec 10 (levelno record)),
    (Z.leb_spec (levelno record) 20), (Z.ltb_spec (levelno record) 30),
    (Z.leb_spec 30 (levelno record)); try lia; reflexivity.
Qed.

(** X11.  After [setup_logging] a record that reaches the root handlers is
    written to stdout when its level is between DEBUG and INFO, to stderr
    from WARNING up, and never to both; a level below DEBUG or strictly
    between INFO and WARNING is written nowhere.  The line is
    [[levelname] name: message]. *)
Theorem handlers_route_by_level (verbose : bool) (st : Logging) (record : PyLogRecord) :
  let line := "[" ++ levelname record ++ "] " ++ name record ++ ": " ++ message record in
  callHandlers (setup_logging verbose st) record
  = if (levelno record <? DEBUG)%Z then []
    else if (levelno record <=? INFO)%Z then [(sys_stdout, line)]
    else if (levelno record <? WARNING)%Z then []
    else [(sys_stderr, line)].
Proof.
  apply callHandlers_installed. apply setup_logging_root.
Qed.

Lemma effective_level_unset (st : Logging) (lineage : list string) :
  (forall logger, logger ∈ lineage -> logger_levels st !! logger = None) ->
  effective_level st lineage = root_level st.
Proof.
  induction lineage as [|logger parents IH]; intros Hunset; [reflexivity|].
  cbn [effective_level]. rewrite Hunset by apply list_elem_of_here.
  apply IH. intros other Hother. apply Hunset. apply list_elem_of_further, Hother.
Qed.

(** X12.  A logger with no level of its own, nor on any of its dotted
    ancestors, follows the root level: without [verbose] its DEBUG records
    are dropped and INFO goes to stdout; with [verbose] DEBUG goes to stdout
    too; WARNING and above go to stderr either way. *)
Theorem plain_logger_output (verbose : bool) (st : Logging) (record : PyLogRecord) :
  (forall logger,
      logger ∈ logger_lineage (name record) ->
      logger_levels (setup_logging verbose st) !! logger = None) ->
  let line := "[" ++ levelname record ++ "] " ++ name record ++ ": " ++ message record in
  Logger_log (setup_logging verbose st) record
  = if (levelno record <? (if verbose then DEBUG else INFO))%Z then []
    else if (levelno record <=? INFO)%Z then [(sys_stdout, line)]
    else if (levelno record <? WARNING)%Z then []
    else [(sys_stderr, line)].
Proof.
  intros Hunset line. unfold Logger_log.
  rewrite (effective_level_unset _ _ Hunset).
  rewrite (proj2 (setup_logging_root verbose st)).
  rewrite callHandlers_installed by apply setup_logging_root.
  fold line. unfold DEBUG, INFO, WARNING.
  destruct verbose;
    repeat match goal with
           | |- context [(?a <=? ?b)%Z] => destruct (Z.leb_spec a b)
           | |- context [(?a <? ?b)%Z] => destruct (Z.ltb_spec a b)
           end; try lia; reflexivity.
Qed.

(** X13.  With [verbose] the three named loggers get levels of their own:
    the sqlalchemy logger writes its DEBUG and INFO records to stdout, and
    the filelock and flake8 loggers write nothing below WARNING, whatever
    level the root logger has. *)
Theorem verbose_named_loggers (st : Logging) (record : PyLogRecord) :
  let line := "[" ++ levelname record ++ "] " ++ name record ++ ": " ++ message record in
  (name record = "sqlalchemy" ->
   (DEBUG <= levelno record <= INFO)%Z ->
   Logger_log (setup_logging true st) record = [(sys_stdout, line)])
  /\ (name record = "filelock" \/ name record = "flake8" ->
      (levelno record < WARNING)%Z ->
      Logger_log (setup_logging true st) record = []).
Proof.
  intros line. split.
  - intros Hname Hlevel. unfold Logger_log. rewrite Hname.
    cbn [logger_lineage dotted_prefixes Ascii.eqb Bool.eqb effective_level].
    rewrite setup_logging_levels.
    rewrite lookup_insert_ne by discriminate.
    rewrite lookup_insert_ne by discriminate.
    rewrite lookup_insert_eq.
    rewrite callHandlers_installed by apply setup_logging_root.
    fold line. unfold DEBUG, INFO, WARNING, NOTSET in *. cbn [Z.eqb].
    repeat match goal with
           | |- context [(?a <=? ?b)%Z] => destruct (Z.leb_spec a b)
           | |- context [(?a <? ?b)%Z] => destruct (Z.ltb_spec a b)
           end; try lia; reflexivity.
  - intros [Hname|Hname] Hlevel; unfold Logger_log; rewrite Hname;
      cbn [logger_lineage dotted_prefixes Ascii.eqb Bool.eqb effective_level];
      rewrite setup_logging_levels.
    + rewrite lookup_insert_ne by discriminate.
      rewrite lookup_insert_eq.
      unfold WARNING, NOTSET in *. cbn [Z.eqb].
      destruct (Z.leb_spec 30 (levelno record)); [lia|reflexivity].
    + rewrite lookup_insert_eq.
      unfold WARNING, NOTSET in *. cbn [Z.eqb].
      destruct (Z.leb_spec 30 (levelno record)); [lia|reflexivity].
Qed.

(** X14.  [setup_logging] never takes back what a verbose call set: after a
    verbose call followed by a call without [verbose], the sqlalchemy logger
    still writes its DEBUG records to stdout although the root level is INFO,
    and the [default] warning filter is still the first one. *)
Theorem verbose_settings_survive (st : Logging) (record : PyLogRecord) :
  let st' := setup_logging false (setup_logging true st) in
  let line := "[" ++ levelname record ++ "] " ++ name record ++ ": " ++ message record in
  root_level st' = INFO
  /\ logger_levels st' !! "sqlalchemy" = Some DEBUG
  /\ head (warnings_filters st') = Some "default"
  /\ (name record = "sqlalchemy" ->
      levelno record = DEBUG ->
      Logger_log st' record = [(sys_stdout, line)]).
Proof.
  intros st' line.
  assert (logger_levels st' !! "sqlalchemy" = Some DEBUG) as Hlevel.
  { unfold st'. rewrite !setup_logging_levels.
    rewrite lookup_insert_ne by discriminate.
    rewrite lookup_insert_ne by discriminate.
    apply lookup_insert_eq. }
  split; [apply (setup_logging_root false)|].
  split; [exact Hlevel|].
  split.
  - unfold st', setup_logging. rewrite !_reset_logging_eq. reflexivity.
  - intros Hname Hno. unfold Logger_log. rewrite Hname.
    change (logger_lineage "sqlalchemy") with ["sqlalchemy"].
    cbn [effective_level]. rewrite Hlevel. unfold st'.
    rewrite callHandlers_installed by apply setup_logging_root.
    fold line. rewrite Hno. reflexivity.
Qed.

(** * Properties of chuleisi/controller.py *)

Lemma start_loop (indices : list Z) (self : Controller) (h : Host) :
  fold_left
    (fun (state : Controller * Host) (i : Z) =>
       let self := state.1 in
       let h := state.2 in
       let proc := mkProcessor ("worker-" ++ pretty i) in
       let h := host_process (Process_start proc) h in
       (mkController (config self) (_processors self ++ [proc]) (_number_of_workers self),
        h))
    indices (self, h)
  = (mkController (config self)
       (_processors self
        ++ List.map (fun i : Z => mkProcessor ("worker-" ++ pretty i)) indices)%list
       (_number_of_workers self),
     mkHost (setup_logging_calls h) (log_calls h)
       (process_calls h
        ++ List.map Process_start
             (List.map (fun i : Z => mkProcessor ("worker-" ++ pretty i)) indices))%list).
Proof.
  revert self h. induction indices as [|i indices IH]; intros self h.
  - cbn. rewrite !app_nil_r. destruct self, h. reflexivity.
  - cbn [fold_left]. rewrite IH. cbn. rewrite <- !app_assoc. reflexivity.
Qed.

Lemma join_loop (procs : list Processor) (h : Host) :
  fold_left (fun h proc => host_process (Process_join proc) h) procs h
  = mkHost (setup_logging_calls h) (log_calls h)
           (process_calls h ++ List.map Process_join procs)%list.
Proof.
  revert h. induction procs as [|proc procs IH]; intros h.
  - cbn. rewrite app_nil_r. destruct h. reflexivity.
  - cbn [fold_left]. rewrite IH. cbn. rewrite <- app_assoc. reflexivity.
Qed.

Lemma workers_length (n : Z) : length (workers n) = Z.to_nat n.
Proof.
  unfold workers, range. rewrite length_map, length_seqZ. f_equal. lia.
Qed.

Lemma workers_NoDup (n : Z) : NoDup (workers n).
Proof.
  unfold workers, range.
  assert (forall l : list Z,
             List.map (fun i : Z => mkProcessor ("worker-" ++ pretty i)) l
             = (fun i : Z => mkProcessor ("worker-" ++ pretty i)) <$> l) as ->.
  { induction l as [|x l IH]; [reflexivity|]. cbn. rewrite IH. reflexivity. }
  apply NoDup_fmap_2; [|apply NoDup_seqZ].
  intros i j Heq. injection Heq as Heq.
  change (pretty i = pretty j) in Heq.
  apply (inj pretty) in Heq. exact Heq.
Qed.

(** X15.  [start] logs one line and then creates, starts and records one
    process per worker, named worker-1 to worker-n in this order, after the
    processes the controller already holds; the names are pairwise distinct,
    there are n of them, and none when n is zero or negative.  The line says
    "worker" for at most one worker and "workers" for more. *)
Theorem start_spawns_workers (self : Controller) (h : Host) :
  let n := _number_of_workers self in
  Controller_start self h
  = (mkController (config self) (_processors self ++ workers n)%list n,
     mkHost (setup_logging_calls h)
       (log_calls h
        ++ [(INFO, ("Starting the controller with " ++ pretty n ++ " worker"
                    ++ (if (1 <? n)%Z then "s" else ""))%string)])%list
       (process_calls h ++ List.map Process_start (workers n))%list)
  /\ length (workers n) = Z.to_nat n
  /\ NoDup (workers n)
  /\ ((n <= 0)%Z -> workers n = []).
Proof.
  intros n. split; [|split; [|split]].
  - unfold Controller_start. rewrite start_loop. reflexivity.
  - apply workers_length.
  - apply workers_NoDup.
  - intros Hn. apply length_zero_iff_nil. rewrite workers_length. lia.
Qed.

(** X16.  [main] on a controller fresh from its constructor starts every
    worker before it joins any, and joins each worker it started, once and in
    the order of the starts; the last thing it logs is that all workers have
    finished.  With no worker it starts and joins nothing and still logs the
    two lines. *)
Theorem main_joins_every_worker (Config_str : Config -> string) (cfg : Config)
    (h : Host) :
  let n := number_of_workers (main cfg) in
  let fresh := Controller___init__ Config_str cfg h in
  Controller_main fresh.1 fresh.2
  = (mkController cfg (workers n) n,
     mkHost (setup_logging_calls h ++ [verbose (main cfg)])%list
       (log_calls h
        ++ [(DEBUG, ("Loaded the following configuration:" ++ newline
                     ++ Config_str cfg)%string);
            (INFO, ("Starting the controller with " ++ pretty n ++ " worker"
                    ++ (if (1 <? n)%Z then "s" else ""))%string);
            (INFO, "All workers finished, exiting")])%list
       (process_calls h ++ List.map Process_start (workers n)
        ++ List.map Process_join (workers n))%list).
Proof.
  intros n fresh. unfold Controller_main, Controller_start, fresh, Controller___init__.
  cbn [fst snd _number_of_workers]. rewrite start_loop.
  cbn [fst snd _processors config _number_of_workers app]. rewrite join_loop.
  unfold host_log, host_setup_logging. cbn. fold n.
  rewrite <- !app_assoc. reflexivity.
Qed.

(** X17.  [start] has no guard against a second call: called twice on a
    fresh controller it starts 2n processes, and every worker name is taken
    by two of them. *)
Theorem start_twice_doubles_workers (Config_str : Config -> string) (cfg : Config)
    (h : Host) :
  let n := number_of_workers (main cfg) in
  let fresh := Controller___init__ Config_str cfg h in
  let once := Controller_start fresh.1 fresh.2 in
  let twice := Controller_start once.1 once.2 in
  _processors twice.1 = (workers n ++ workers n)%list
  /\ process_calls twice.2
     = (process_calls h ++ List.map Process_start (workers n)
        ++ List.map Process_start (workers n))%list
  /\ length (_processors twice.1) = (2 * Z.to_nat n)%nat.
Proof.
  intros n fresh once twice.
  assert (once = (mkController cfg (workers n) n,
                  mkHost (setup_logging_calls fresh.2)
                    (log_calls fresh.2
                     ++ [(INFO, ("Starting the controller with " ++ pretty n ++ " worker"
                                 ++ (if (1 <? n)%Z then "s" else ""))%string)])%list
                    (process_calls h ++ List.map Process_start (workers n))%list))
    as Honce.
  { unfold once, Controller_start. rewrite start_loop. reflexivity. }
  unfold twice, Controller_start. rewrite start_loop, Honce.
  cbn [fst snd _processors config _number_of_workers process_calls host_log].
  split; [reflexivity|]. split.
  - rewrite <- app_assoc. reflexivity.
  - rewrite length_app. fold (workers n). rewrite workers_length. lia.
Qed.

(** * The text form of event ids *)

Lemma hex_byte_inj (a b : byte) : hex_byte a = hex_byte b -> a = b.
Proof.
  intros H.
  assert (forall x,
             Byte.of_N
               (match hex_byte x with
                | String c1 (String c2 _) =>
                    ((if (N_of_ascii c1 <? 58)%N then N_of_ascii c1 - 48
                      else N_of_ascii c1 - 87) * 16
                     + (if (N_of_ascii c2 <? 58)%N then N_of_ascii c2 - 48
                        else N_of_ascii c2 - 87))%N
                | _ => 0%N
                end) = Some x) as Hdecode.
  { intros x. destruct x; vm_compute; reflexivity. }
  pose proof (Hdecode a) as Ha. pose proof (Hdecode b) as Hb.
  rewrite H in Ha. congruence.
Qed.

Lemma sixteen_items {A} (l : list A) :
  length l = 16%nat ->
  exists a0 a1 a2 a3 a4 a5 a6 a7 a8 a9 a10 a11 a12 a13 a14 a15,
    l = [a0; a1; a2; a3; a4; a5; a6; a7; a8; a9; a10; a11; a12; a13; a14; a15].
Proof.
  intros H. do 16 (destruct l as [|? l]; [discriminate|]).
  destruct l; [|discriminate]. repeat eexists.
Qed.

(** X18.  The text of an event id, the key of the registries and the
    event_id of Unknown and Invalid rows, has 36 characters and determines
    the 16 bytes it was made from: two ids with the same text are the same
    id. *)
Theorem event_id_text_injective (a b : bytes) :
  length a = 16%nat ->
  length b = 16%nat ->
  String.length (uuid_text a) = 36%nat
  /\ (UUID_str a = UUID_str b -> a = b).
Proof.
  intros Ha Hb.
  destruct (sixteen_items a Ha)
    as (a0 & a1 & a2 & a3 & a4 & a5 & a6 & a7 & a8 & a9 & a10 & a11 & a12 & a13 & a14
        & a15 & ->).
  destruct (sixteen_items b Hb)
    as (b0 & b1 & b2 & b3 & b4 & b5 & b6 & b7 & b8 & b9 & b10 & b11 & b12 & b13 & b14
        & b15 & ->).
  split; [reflexivity|].
  rewrite !UUID_str_16 by reflexivity. intros [= H].
  unfold uuid_text, hex_bytes in H. cbn [List.map String.concat] in H.
  unfold hex_byte in H. cbv [String.append String.substring] in H.
  simplify_eq.
  repeat f_equal; apply hex_byte_inj; unfold hex_byte; cbv zeta; congruence.
Qed.

(** * The further properties at sample inputs *)

Lemma malformed_event_id_raises_witness :
  new_singular_event sample_get_data_as_bytes sample_print unbox sample_registry
    sample_request (singular_record 7 ["001"%byte; "002"%byte] 5 None) empty_world
  = (Raise (mkExc ValueError "bytes is not a 16-char string"), empty_world).
Proof.
  apply (malformed_event_id_raises sample_get_data_as_bytes sample_print unbox
           sample_registry sample_request 7 ["001"%byte; "002"%byte] empty_world).
  simpl. lia.
Defined.

Lemma dispatch_adds_one_row_witness :
  exists row w',
    new_sequence_event sample_get_data_as_bytes sample_print unbox failing_registry
      sample_request
      (sequence_record 7 zero_id [(5, Some (GBox (GString "x"))); (9, None)])
      (mkWorld [mkEvent UnknownSequence ∅] [])
    = (Ok row, w')
    /\ one_row_added (mkWorld [mkEvent UnknownSequence ∅] []) row w'.
Proof.
  destruct (dispatch_adds_one_row sample_get_data_as_bytes sample_print unbox
              failing_registry sample_request 7 zero_id
              (mkWorld [mkEvent UnknownSequence ∅] []) eq_refl)
    as (_ & _ & Hsequence).
  exact (Hsequence [(5, Some (GBox (GString "x"))); (9, None)]).
Defined.

Lemma registered_model_is_dispatched_witness :
  exists row,
    new_singular_event sample_get_data_as_bytes sample_print unbox
      (MetricMeta___new__ "ImageVersion" [SingularEvent] (Some (uuid_text zero_id))
         image_version_model failing_registry).2
      sample_request (singular_record 7 zero_id 5 (Some (GBox (GString "3.9"))))
      empty_world
    = (Ok row, add_row row empty_world)
    /\ event_class row = Known image_version_model.
Proof.
  destruct (registered_model_is_dispatched sample_get_data_as_bytes sample_print unbox
              "ImageVersion" [SingularEvent] image_version_model failing_registry
              sample_request 7 zero_id empty_world eq_refl)
    as (Hsingular & _).
  destruct (Hsingular eq_refl 5 (Some (GBox (GString "3.9")))
              {[ "image_version" := PyStr "3.9" ]} empty_world eq_refl)
    as (row & Hrun & Hclass & _).
  exists row. split; [exact Hrun|exact Hclass].
Defined.

Lemma registration_is_local_witness :
  new_aggregate_event sample_get_data_as_bytes sample_print unbox
    (MetricMeta___new__ "ImageVersion" [SingularEvent] (Some zero_uuid)
       image_version_model empty_registry).2
    sample_request (aggregate_record 7 zero_id 12 5 None)
  = new_aggregate_event sample_get_data_as_bytes sample_print unbox empty_registry
      sample_request (aggregate_record 7 zero_id 12 5 None).
Proof.
  destruct (registration_is_local sample_get_data_as_bytes sample_print unbox
              "ImageVersion" [SingularEvent] zero_uuid image_version_model empty_registry
              eq_refl)
    as (Haggregate & _).
  apply Haggregate.
Defined.

Lemma no_payload_model_discards_payload_witness :
  exists row w',
    new_singular_event sample_get_data_as_bytes sample_print unbox
      (mkRegistry {[ zero_uuid := no_payload_model ]} ∅ ∅)
      sample_request (singular_record 7 zero_id 5 (Some (GBox (GString "x"))))
      empty_world
    = (Ok row, w')
    /\ event_class row = Known no_payload_model
    /\ log w'
       = [mkLog "ERROR"
            "Metric event 00000000-0000-0000-0000-000000000000 takes no payload, but got <'x'>"
            None].
Proof.
  destruct (no_payload_model_discards_payload sample_get_data_as_bytes sample_print unbox
              (mkRegistry {[ zero_uuid := no_payload_model ]} ∅ ∅)
              sample_request 7 zero_id no_payload_model empty_world eq_refl eq_refl)
    as (Hsingular & _).
  do 2 eexists. split.
  - apply (Hsingular 5 (Some (GBox (GString "x")))). vm_compute. reflexivity.
  - split; reflexivity.
Defined.

Lemma bad_payload_gives_invalid_witness :
  exists row w',
    new_aggregate_event sample_get_data_as_bytes sample_print unbox sample_registry
      sample_request (aggregate_record 7 zero_id 12 5 (Some (GBox (GUint32 3))))
      empty_world
    = (Ok row, w')
    /\ event_class row = InvalidAggregateEvent
    /\ event_attrs row !! "error"
       = Some (PyStr "Metric event 00000000-0000-0000-0000-000000000000 needs a s payload, but got 3 (u)").
Proof.
  destruct (bad_payload_gives_invalid sample_get_data_as_bytes sample_print unbox
              sample_registry sample_request 7 zero_id image_version_model "s"
              (Some (GBox (GUint32 3))) empty_world eq_refl eq_refl
              ltac:(vm_compute; discriminate))
    as (_ & Haggregate & _).
  destruct (Haggregate 12 5 ltac:(vm_compute; reflexivity)) as (row & Hrun & Hclass & Herr).
  exists row. eexists. split; [exact Hrun|]. split; [exact Hclass|].
  rewrite Herr. vm_compute. reflexivity.
Defined.

Lemma unknown_invalid_columns_witness :
  exists row w',
    new_singular_event sample_get_data_as_bytes sample_print unbox empty_registry
      sample_request (singular_record 7 zero_id 5 None) empty_world
    = (Ok row, w')
    /\ dom (event_attrs row)
       = ({[ "payload_data"; "request"; "user_id"; "occured_at"; "event_id" ]}
          : gset string).
Proof.
  destruct (unknown_invalid_columns sample_get_data_as_bytes sample_print unbox
              empty_registry sample_request 7 zero_id empty_world eq_refl)
    as (Hsingular & _).
  destruct (Hsingular 5 None) as (row & w' & Hrun & Hunknown & _).
  exists row, w'. split; [exact Hrun|].
  apply Hunknown. vm_compute in Hrun. injection Hrun as <- _. reflexivity.
Defined.

Lemma aggregate_count_verbatim_witness :
  exists row w',
    new_aggregate_event sample_get_data_as_bytes sample_print unbox sample_registry
      sample_request (aggregate_record 7 zero_id (-3) 5 (Some (GBox (GString "3.9"))))
      empty_world
    = (Ok row, w')
    /\ event_attrs row !! "count" = Some (PyInt (-3)).
Proof.
  exact (aggregate_count_verbatim sample_get_data_as_bytes sample_print unbox
           sample_registry sample_request 7 zero_id (-3) 5 (Some (GBox (GString "3.9")))
           empty_world eq_refl sample_registry_own_columns).
Defined.

Lemma plain_logger_output_witness :
  Logger_log (setup_logging false initial_logging)
    (mkPyLogRecord DEBUG "DEBUG" "azafea.controller" "Loaded the configuration")
  = []
  /\ Logger_log (setup_logging false initial_logging)
       (mkPyLogRecord ERROR "ERROR" "azafea.controller" "An error occured")
     = [(sys_stderr, "[ERROR] azafea.controller: An error occured")].
Proof.
  split.
  - rewrite (plain_logger_output false initial_logging
               (mkPyLogRecord DEBUG "DEBUG" "azafea.controller" "Loaded the configuration"));
      [reflexivity|].
    intros logger _. rewrite setup_logging_levels. apply lookup_empty.
  - rewrite (plain_logger_output false initial_logging
               (mkPyLogRecord ERROR "ERROR" "azafea.controller" "An error occured"));
      [reflexivity|].
    intros logger _. rewrite setup_logging_levels. apply lookup_empty.
Defined.

Lemma verbose_named_loggers_witness :
  Logger_log (setup_logging true initial_logging)
    (mkPyLogRecord DEBUG "DEBUG" "sqlalchemy" "select 1")
  = [(sys_stdout, "[DEBUG] sqlalchemy: select 1")]
  /\ Logger_log (setup_logging true initial_logging)
       (mkPyLogRecord INFO "INFO" "filelock" "lock acquired")
     = [].
Proof.
  split.
  - apply (proj1 (verbose_named_loggers initial_logging
                    (mkPyLogRecord DEBUG "DEBUG" "sqlalchemy" "select 1")));
      [reflexivity|]. unfold DEBUG, INFO. cbn. lia.
  - apply (proj2 (verbose_named_loggers initial_logging
                    (mkPyLogRecord INFO "INFO" "filelock" "lock acquired")));
      [left; reflexivity|]. unfold INFO, WARNING. cbn. lia.
Defined.

Lemma verbose_settings_survive_witness :
  Logger_log (setup_logging false (setup_logging true initial_logging))
    (mkPyLogRecord DEBUG "DEBUG" "sqlalchemy" "select 1")
  = [(sys_stdout, "[DEBUG] sqlalchemy: select 1")].
Proof.
  destruct (verbose_settings_survive initial_logging
              (mkPyLogRecord DEBUG "DEBUG" "sqlalchemy" "select 1"))
    as (_ & _ & _ & Hlog).
  apply Hlog; reflexivity.
Defined.

Lemma start_spawns_workers_witness :
  _processors (Controller_start (mkController (mkConfig (mkMainConfig false 3)) [] 3)
                 empty_host).1
  = [mkProcessor "worker-1"; mkProcessor "worker-2"; mkProcessor "worker-3"]
  /\ log_calls (Controller_start (mkController (mkConfig (mkMainConfig false 1)) [] 1)
                  empty_host).2
     = [(INFO, "Starting the controller with 1 worker")]
  /\ workers 0 = [].
Proof.
  destruct (start_spawns_workers (mkController (mkConfig (mkMainConfig false 3)) [] 3)
              empty_host) as (H3 & _).
  destruct (start_spawns_workers (mkController (mkConfig (mkMainConfig false 1)) [] 1)
              empty_host) as (H1 & _).
  destruct (start_spawns_workers (mkController (mkConfig (mkMainConfig false 0)) [] 0)
              empty_host) as (_ & _ & _ & H0).
  split; [rewrite H3; vm_compute; reflexivity|].
  split; [rewrite H1; vm_compute; reflexivity|].
  apply H0. cbn. lia.
Defined.

Lemma event_id_text_injective_witness :
  String.length (uuid_text zero_id) = 36%nat
  /\ (UUID_str zero_id = UUID_str (replicate 16 "000"%byte) -> zero_id = replicate 16 "000"%byte).
Proof.
  exact (event_id_text_injective zero_id (replicate 16 "000"%byte) eq_refl eq_refl).
Defined.
